(** * A shallow embedding of the natural-language-to-SQL assistant

  The repository holds two variants of one program: the script
  [src/l1.py] (module-level singletons) and its refactoring
  [src/src/l1.py] (explicit construction in [main]).  Both expose the
  tool [execute_sql], the schema summarizer [get_compact_schema], the
  prompt [get_user_question], the reporter [handle_error] and the
  streaming loop.

  Python text is a sequence of Unicode code points; exceptions are values
  with a class; every effectful function is a computation over an explicit
  [World] (ambient runtime, database contents, terminal, call log) that
  either returns or raises. *)

From Stdlib Require Import NArith ZArith List String Ascii Bool Lia DecimalString.
From stdpp Require Import base strings gmap list.

Set Implicit Arguments.
Local Open Scope N_scope.

(* ===================================================================== *)
(** ** Python text *)
(* ===================================================================== *)

Module PyStr.

(** A [str] is a sequence of code points. *)
Definition codepoint := N.
Definition str := list codepoint.

(** Source literals are ASCII; [py] reads one as a [str]. *)
Definition py (s : string) : str :=
  map N_of_ascii (list_ascii_of_string s).

Definition nl : str := [10].

(** [str.isspace] on one code point, as CPython's Unicode database has
    it: the characters that the argument-less [str.strip] removes. *)
Definition isspace (c : codepoint) : bool :=
  ((9 <=? c) && (c <=? 13))
  || ((28 <=? c) && (c <=? 32))
  || (c =? 133) || (c =? 160) || (c =? 5760)
  || ((8192 <=? c) && (c <=? 8202))
  || (c =? 8232) || (c =? 8233) || (c =? 8239) || (c =? 8287)
  || (c =? 12288).

(** [s.lstrip()], [s.rstrip()] and [s.strip()]. *)
Fixpoint lstrip (s : str) : str :=
  match s with
  | [] => []
  | c :: s' => if isspace c then lstrip s' else s
  end.

Fixpoint rstrip (s : str) : str :=
  match s with
  | [] => []
  | c :: s' =>
      match rstrip s' with
      | [] => if isspace c then [] else [c]
      | r => c :: r
      end
  end.

Definition strip (s : str) : str := rstrip (lstrip s).

(** [a or b] on text: the empty text is the only falsy one. *)
Definition or_ (a b : str) : str :=
  match a with
  | [] => b
  | _ :: _ => a
  end.

(** [sep.join(parts)]. *)
Fixpoint join (sep : str) (parts : list str) : str :=
  match parts with
  | [] => []
  | [p] => p
  | p :: rest => p ++ sep ++ join sep rest
  end.

(** [s.split(sep)] for a one-character separator: the inverse reading of
    [join], used to count the lines of a rendered schema. *)
Fixpoint split (sep : codepoint) (s : str) : list str :=
  match s with
  | [] => [[]]
  | c :: s' =>
      if c =? sep then [] :: split sep s'
      else match split sep s' with
           | [] => [[c]]
           | p :: ps => (c :: p) :: ps
           end
  end.

End PyStr.
Export PyStr.

(* ===================================================================== *)
(** ** Python exceptions and outcomes *)
(* ===================================================================== *)

Module PyExc.

(** The classes the program can meet.  The first three derive from
    [BaseException] only; every other one derives from [Exception].
    [LibraryError] stands for any class a library derives from
    [Exception] (a driver's [OperationalError], say). *)
Inductive exc_class : Type :=
| KeyboardInterrupt
| SystemExit (code : Z)
| GeneratorExit
| EOFError
| FileNotFoundError
| RuntimeError
| AttributeError
| KeyError
| IndexError
| TypeError
| LibraryError (qualname : string).

(** An exception value: its class, what [str(e)] gives, and the text of
    [e.response.text] when [e] has a [response] that has a [text]. *)
Record exc : Type := mkExc {
  exc_cls : exc_class;
  exc_str : str;
  exc_response_text : option str
}.

Definition plain (c : exc_class) (msg : str) : exc :=
  {| exc_cls := c; exc_str := msg; exc_response_text := None |}.

(** [isinstance(e, Exception)]. *)
Definition is_Exception (e : exc) : bool :=
  match exc_cls e with
  | KeyboardInterrupt | SystemExit _ | GeneratorExit => false
  | _ => true
  end.

(** [isinstance(e, KeyboardInterrupt)]. *)
Definition is_KeyboardInterrupt (e : exc) : bool :=
  match exc_cls e with
  | KeyboardInterrupt => true
  | _ => false
  end.

(** [isinstance(e, (KeyboardInterrupt, EOFError))]. *)
Definition is_KeyboardInterrupt_or_EOFError (e : exc) : bool :=
  match exc_cls e with
  | KeyboardInterrupt | EOFError => true
  | _ => false
  end.

(** What a call does: it returns a value or raises. *)
Inductive outcome (A : Type) : Type :=
| Return (a : A)
| Raise (e : exc).
Arguments Return {A} a.
Arguments Raise {A} e.

Definition returned {A} (o : outcome A) : bool :=
  match o with Return _ => true | Raise _ => false end.

End PyExc.
Export PyExc.

(* ===================================================================== *)
(** ** The world the program runs in *)
(* ===================================================================== *)

Module Model.
Section Model.

(** The contents of the database files: whatever the engine reads and
    writes.  The program never looks inside. *)
Context {Storage : Type}.

(** One entry of the inspector's answer; the program reads [col['name']]
    only. *)
Record ReflectedColumn : Type := {
  col_name : str;
  col_type : str
}.

(** A database handle ([SQLDatabase]): the external capabilities the
    program uses.  [engine_run] is the round trip of [db.run(query)];
    [usable_tables] is what [db.get_usable_table_names()] answers;
    [catalog_columns] is [db._inspector.get_columns(table)]. *)
Record SQLDatabase : Type := {
  uri : str;
  engine_run : str -> Storage -> outcome str * Storage;
  usable_tables : list str;
  catalog_columns : str -> Storage -> outcome (list ReflectedColumn)
}.

(** [@dataclass class RuntimeContext: db: SQLDatabase]. *)
Record RuntimeContext : Type := { db : SQLDatabase }.

(** The runtime object of the enclosing run; [context] is [None] when the
    run was started without one. *)
Record Runtime : Type := { context : option RuntimeContext }.

(** The call log of a handle: which method was called, on which handle. *)
Inductive DbCall : Type :=
| CallRun (on query : str)
| CallTableNames (on : str)
| CallColumns (on table : str).

Definition is_run (c : DbCall) : bool :=
  match c with CallRun _ _ => true | _ => false end.

(** What the terminal delivers to [input()]: a line, or an interrupt.
    An exhausted list is end of file. *)
Inductive StdinEvent : Type :=
| Line (text : str)
| CtrlC.

Record World : Type := {
  ambient : option Runtime;
  storage : Storage;
  stdin : list StdinEvent;
  stdout : str;
  db_calls : list DbCall
}.

Definition set_storage (st : Storage) (w : World) : World :=
  {| ambient := ambient w; storage := st; stdin := stdin w;
     stdout := stdout w; db_calls := db_calls w |}.

Definition log_call (c : DbCall) (w : World) : World :=
  {| ambient := ambient w; storage := storage w; stdin := stdin w;
     stdout := stdout w; db_calls := db_calls w ++ [c] |}.

Definition write_stdout (s : str) (w : World) : World :=
  {| ambient := ambient w; storage := storage w; stdin := stdin w;
     stdout := stdout w ++ s; db_calls := db_calls w |}.

Definition set_stdin (i : list StdinEvent) (w : World) : World :=
  {| ambient := ambient w; storage := storage w; stdin := i;
     stdout := stdout w; db_calls := db_calls w |}.

(** *** Computations: state passing with exceptions *)

Definition M (A : Type) : Type := World -> outcome A * World.

Definition ret {A} (a : A) : M A := fun w => (Return a, w).

Definition raise {A} (e : exc) : M A := fun w => (Raise e, w).

Definition bind {A B} (m : M A) (k : A -> M B) : M B :=
  fun w =>
    match m w with
    | (Return a, w') => k a w'
    | (Raise e, w') => (Raise e, w')
    end.

Definition lift {A} (o : outcome A) : M A := fun w => (o, w).

End Model.

Arguments SQLDatabase : clear implicits.
Arguments RuntimeContext : clear implicits.
Arguments Runtime : clear implicits.
Arguments World : clear implicits.
Arguments M : clear implicits.

End Model.
Export Model.

Declare Scope py_scope.
Delimit Scope py_scope with py.
Notation "x <- m ;; k" := (bind m (fun x => k))
(at level 100, m at next level, right associativity) : py_scope.
Notation "m ;;; k" := (bind m (fun _ => k))
(at level 100, right associativity) : py_scope.
Open Scope py_scope.

(* ===================================================================== *)
(** ** Built-ins and library calls *)
(* ===================================================================== *)

Module Lib.
Section Lib.

Context {Storage : Type}.
Abbreviation M := (M Storage).
Abbreviation SQLDatabase := (SQLDatabase Storage).

(** [try: body] followed by [except] clauses, tried in order; an
    exception raised inside a handler is not offered to the clauses
    after it. *)
Fixpoint dispatch {A} (clauses : list ((exc -> bool) * (exc -> M A)))
         (e : exc) : M A :=
  match clauses with
  | [] => raise e
  | (catches, handler) :: rest =>
      if catches e then handler e else dispatch rest e
  end.

Definition try_except {A} (body : M A)
           (clauses : list ((exc -> bool) * (exc -> M A))) : M A :=
  fun w =>
    match body w with
    | (Return a, w') => (Return a, w')
    | (Raise e, w') => dispatch clauses e w'
    end.

(** [print(s)]. *)
Definition print (s : str) : M unit :=
  fun w => (Return tt, write_stdout (s ++ nl) w).

(** [input(prompt)]: the prompt goes to standard output without a line
    end; the next terminal event decides the rest. *)
Definition input (prompt : str) : M str :=
  fun w =>
    let w1 := write_stdout prompt w in
    match stdin w1 with
    | [] => (Raise (plain EOFError (py "EOF when reading a line")), w1)
    | Line text :: rest => (Return text, set_stdin rest w1)
    | CtrlC :: rest => (Raise (plain KeyboardInterrupt []), set_stdin rest w1)
    end.

(** [exit(code)] raises [SystemExit(code)]. *)
Definition exit {A} (code : Z) : M A :=
  raise (plain (SystemExit code)
               (py (DecimalString.NilZero.string_of_int (Z.to_int code)))).

(** [load_dotenv()]: fills the process environment, which nothing in the
    model reads. *)
Definition load_dotenv : M unit := ret tt.

(** [d[key]] on a dict with text keys. *)
Definition getitem {V} (d : gmap string V) (key : string) : M V :=
  match d !! key with
  | Some v => ret v
  | None => raise (plain KeyError (py "'" ++ py key ++ py "'"))
  end.

(** [l[-1]]. *)
Definition last_item {V} (l : list V) : M V :=
  match last l with
  | Some v => ret v
  | None => raise (plain IndexError (py "list index out of range"))
  end.

(** Modelled from the spec: [langgraph.runtime.get_runtime], an imported
    library function.  It answers the runtime of the enclosing run and
    fails fatally when none is bound. *)
Definition get_runtime : M (Runtime Storage) :=
  fun w =>
    match ambient w with
    | Some runtime => (Return runtime, w)
    | None =>
        (Raise (plain RuntimeError
                      (py "Called get_config outside of a runnable context")),
         w)
    end.

(** [runtime.context.db]; the attribute is missing on [None]. *)
Definition context_db (runtime : Runtime Storage) : M SQLDatabase :=
  match context runtime with
  | Some ctx => ret (db ctx)
  | None =>
      raise (plain AttributeError
                   (py "'NoneType' object has no attribute 'db'"))
  end.

(** [db.run(query)]: one engine round trip, logged. *)
Definition run (d : SQLDatabase) (query : str) : M str :=
  fun w =>
    let '(result, st) := engine_run d query (storage w) in
    (result, log_call (CallRun (uri d) query) (set_storage st w)).

(** [db.get_usable_table_names()]. *)
Definition get_usable_table_names (d : SQLDatabase) : M (list str) :=
  fun w => (Return (usable_tables d), log_call (CallTableNames (uri d)) w).

(** [db._inspector.get_columns(table)]. *)
Definition inspector_get_columns (d : SQLDatabase) (table : str)
  : M (list ReflectedColumn) :=
  fun w => (catalog_columns d table (storage w),
            log_call (CallColumns (uri d) table) w).

(** A message of the conversation: [pretty_repr] is what rendering it
    gives, or the exception rendering raises on an unexpected shape. *)
Record Message : Type := { pretty_repr : outcome str }.

Definition pretty_print (m : Message) : M unit :=
  match pretty_repr m with
  | Return text => print text
  | Raise e => raise e
  end.

(** A snapshot of the conversation state ([stream_mode="values"]): a
    dict whose ["messages"] entry is the message list. *)
Definition Step : Type := gmap string (list Message).

(** A compiled agent over generators with state [G]:
    [stream question context] makes the generator (nothing runs yet),
    [gen_next] is one [next()] on it, [None] for [StopIteration].  What a
    [next()] does to the world (model calls, tool calls) is the
    agent's. *)
Context {G : Type}.

Record CompiledAgent : Type := {
  stream : str -> gmap string SQLDatabase -> G;
  gen_next : G -> M (option (Step * G))
}.

(** What the surroundings of the program provide: the location
    [Path(__file__).parent.parent / DB_RELATIVE_PATH] as text, whether a
    path exists, [SQLDatabase.from_uri], and
    [create_agent(model=ChatCohere(), tools=[execute_sql],
    system_prompt=..., context_schema=RuntimeContext)] with the
    construction of its model argument. *)
Record Environment : Type := {
  db_path : str;
  path_exists : str -> bool;
  from_uri : str -> outcome SQLDatabase;
  create_agent : str -> outcome CompiledAgent
}.

Inductive flow : Type := Continue | Break.

(** [step["messages"][-1].pretty_print()]: reading the last message of a
    snapshot and rendering it. *)
Definition render_last (step : Step) : M unit :=
  messages <- getitem step "messages" ;;
  message <- last_item messages ;;
  pretty_print message.

(** [for step in generator: body].  The generator is a mutable object; its
    state is passed along and the state the loop leaves it in is answered,
    [None] when the fuel ran out before the loop ended. *)
Fixpoint for_in (next : G -> M (option (Step * G))) (body : Step -> M flow)
         (fuel : nat) (g : G) : M (option G) :=
  match fuel with
  | O => ret None
  | S fuel' =>
      item <- next g ;;
      match item with
      | None => ret (Some g)
      | Some (step, g') =>
          f <- body step ;;
          match f with
          | Break => ret (Some g')
          | Continue => for_in next body fuel' g'
          end
      end
  end.

(** Statements after a loop run only once the loop has ended. *)
Definition finished {A} (r : option A) : option unit :=
  match r with
  | Some _ => Some tt
  | None => None
  end.

(** [for x in xs: acc = body(x, acc)] over a list. *)
Fixpoint for_list {X A} (xs : list X) (body : X -> A -> M A) (acc : A)
  : M A :=
  match xs with
  | [] => ret acc
  | x :: rest => acc' <- body x acc ;; for_list rest body acc'
  end.

(** A generator expression over a list, consumed to the end. *)
Fixpoint gen_list {X Y} (f : X -> M Y) (xs : list X) : M (list Y) :=
  match xs with
  | [] => ret []
  | x :: rest => y <- f x ;; ys <- gen_list f rest ;; ret (y :: ys)
  end.

(** What is left of the integer code of a [SystemExit] as the status
    of the process: the interpreter hands the code to the C [exit] as an
    [int] (a code that does not fit a C [long] of 64 bits is handed over
    as -1), and the operating system keeps the low eight bits. *)
Definition status_of_code (code : Z) : Z :=
  if ((- 2 ^ 63 <=? code) && (code <? 2 ^ 63))%Z
  then (code mod 256)%Z
  else 255%Z.

(** The exit status of the interpreter for what the top level did;
    [None] while it is still running. *)
Definition exit_status (o : outcome (option unit)) : option Z :=
  match o with
  | Return None => None
  | Return (Some _) => Some 0%Z
  | Raise e =>
      match exc_cls e with
      | SystemExit code => Some (status_of_code code)
      | KeyboardInterrupt => Some 130%Z
      | _ => Some 1%Z
      end
  end.

End Lib.

Arguments CompiledAgent : clear implicits.
Arguments Environment : clear implicits.

End Lib.
Export Lib.

(* ===================================================================== *)
(** ** [src/l1.py]: the script with module-level singletons *)
(* ===================================================================== *)

Module L1.
Section L1.

Context {Storage G : Type}.
Abbreviation M := (M Storage).
Abbreviation SQLDatabase := (SQLDatabase Storage).
Abbreviation CompiledAgent := (CompiledAgent Storage G).

(** The module's global names that its functions can see when they run:
    [db] (line 14) and [agent] (line 56). *)
Record Globals : Type := {
  global_db : SQLDatabase;
  global_agent : CompiledAgent
}.

(** [execute_sql] (lines 21-30).  The assignment [db = runtime.context.db]
    makes [db] a local name: the global [db] is never read. *)
Definition execute_sql (globals : Globals) (query : str) : M str :=
  runtime <- get_runtime ;;
  db <- context_db runtime ;;
  try_except (run db query)
    [(is_Exception, fun e => ret (py "Error: " ++ exc_str e))].

(** [get_compact_schema] (lines 32-43): a loop appending one line per
    table. *)
Definition get_compact_schema (db : SQLDatabase) : M str :=
  table_names <- get_usable_table_names db ;;
  schema_lines <-
    for_list table_names
      (fun table_name schema_lines =>
         columns <- inspector_get_columns db table_name ;;
         let col_names := map col_name columns in
         ret (schema_lines
                ++ [py "- " ++ table_name ++ py ": "
                       ++ join (py ", ") col_names]))
      [] ;;
  ret (join nl schema_lines).

(** [SYSTEM_PROMPT] (lines 46-54), with the schema spliced in. *)
Definition SYSTEM_PROMPT (schema : str) : str :=
  py "SQL analyst for music database (read-only)." ++ nl ++ nl
  ++ py "Schema:" ++ nl
  ++ schema ++ nl ++ nl
  ++ py "Rules:" ++ nl
  ++ py "- Use execute_sql with explicit columns (avoid SELECT *)" ++ nl
  ++ py "- Limit 5 rows unless specified" ++ nl
  ++ py "- Fix and retry on errors".

Definition default_question : str :=
  py "List top 10 artists with highest tracks".

(** [get_user_question] (lines 63-68). *)
Definition get_user_question : M str :=
  user_input <-
    input (py "Enter your question (press Enter to use default): "
           ++ nl ++ py "[Default: " ++ default_question ++ py "]"
           ++ nl ++ py "> ") ;;
  ret (or_ (strip user_input) default_question).

(** [handle_error] (lines 70-75): one [print] of the joined lines. *)
Definition handle_error (e : exc) (context : str) : M unit :=
  let error_msg := [nl ++ py "Error " ++ context ++ py ": " ++ exc_str e] in
  let error_msg :=
    match exc_response_text e with
    | Some text => error_msg ++ [py "Response: " ++ text]
    | None => error_msg
    end in
  print (join nl error_msg).

(** The body of the streaming loop (lines 87-91). *)
Definition stream_body (step : Step) : M flow :=
  try_except
    (render_last step ;;; ret Continue)
    [(is_Exception,
      fun e => handle_error e (py "processing stream") ;;; ret Break)].

(** The [if __name__ == "__main__":] block (lines 77-93). *)
Definition dunder_main (globals : Globals) (fuel : nat) : M (option unit) :=
  try_except
    (question <- get_user_question ;;
     print (nl ++ py "Processing: " ++ question ++ nl) ;;;
     g <- for_in (gen_next (global_agent globals)) stream_body fuel
            (stream (global_agent globals) question
                    {[ "db" := global_db globals ]}) ;;
     ret (finished g))
    [(is_Exception,
      fun e => handle_error e (py "in main execution") ;;; ret (Some tt))].

(** The statements the module runs on import (lines 12-61). *)
Definition module_body (env : Environment Storage G) : M Globals :=
  load_dotenv ;;;
  db <- lift (from_uri env (py "sqlite:///Chinook.db")) ;;
  schema <- get_compact_schema db ;;
  agent <- lift (create_agent env (SYSTEM_PROMPT schema)) ;;
  ret {| global_db := db; global_agent := agent |}.

(** The whole script. *)
Definition script (env : Environment Storage G) (fuel : nat)
  : M (option unit) :=
  globals <- module_body env ;;
  dunder_main globals fuel.

End L1.
End L1.

(* ===================================================================== *)
(** ** [src/src/l1.py]: the refactored program *)
(* ===================================================================== *)

Module SrcL1.
Section SrcL1.

Context {Storage G : Type}.
Abbreviation M := (M Storage).
Abbreviation SQLDatabase := (SQLDatabase Storage).
Abbreviation CompiledAgent := (CompiledAgent Storage G).

Definition DEFAULT_QUESTION : str :=
  py "List top 10 artists with highest tracks".

(** [create_database] (lines 15-20). *)
Definition create_database (env : Environment Storage G) : M SQLDatabase :=
  if negb (path_exists env (db_path env)) then
    raise (plain FileNotFoundError (py "Database not found: " ++ db_path env))
  else
    lift (from_uri env (py "sqlite:///" ++ db_path env)).

(** [execute_sql] (lines 27-36). *)
Definition execute_sql (query : str) : M str :=
  runtime <- get_runtime ;;
  db <- context_db runtime ;;
  try_except (run db query)
    [(is_Exception, fun e => ret (py "Error: " ++ exc_str e))].

(** [get_compact_schema] (lines 56-61): a generator expression handed to
    [join]; the table names are fetched first, then every table is
    introspected as [join] pulls its line. *)
Definition get_compact_schema (db : SQLDatabase) : M str :=
  tables <- get_usable_table_names db ;;
  lines <-
    gen_list
      (fun table =>
         columns <- inspector_get_columns db table ;;
         ret (py "- " ++ table ++ py ": "
                 ++ join (py ", ") (map col_name columns)))
      tables ;;
  ret (join nl lines).

(** [create_sql_agent] (lines 39-54). *)
Definition create_sql_agent (env : Environment Storage G) (db : SQLDatabase)
  : M CompiledAgent :=
  schema <- get_compact_schema db ;;
  let system_prompt :=
    py "SQL analyst for music database (read-only)." ++ nl
    ++ py "Schema:" ++ nl
    ++ schema ++ nl
    ++ py "Rules:" ++ nl
    ++ py "- Use execute_sql with explicit columns (avoid SELECT *)" ++ nl
    ++ py "- Limit 5 rows unless specified" ++ nl
    ++ py "- Fix and retry on errors" in
  lift (create_agent env system_prompt).

(** [get_user_question] (lines 63-69). *)
Definition get_user_question : M str :=
  try_except
    (line <- input (py "Question [" ++ DEFAULT_QUESTION ++ py "]: ") ;;
     ret (or_ (strip line) DEFAULT_QUESTION))
    [(is_KeyboardInterrupt_or_EOFError,
      fun _ => print (nl ++ nl ++ py "Exiting...") ;;; exit 0)].

(** [handle_error] (lines 71-75): two [print]s. *)
Definition handle_error (e : exc) (context : str) : M unit :=
  print (nl ++ py "Error " ++ context ++ py ": " ++ exc_str e) ;;;
  match exc_response_text e with
  | Some text => print (py "Response: " ++ text)
  | None => ret tt
  end.

(** The body of the streaming loop (lines 91-95). *)
Definition stream_body (step : Step) : M flow :=
  try_except
    (render_last step ;;; ret Continue)
    [(is_Exception,
      fun e => handle_error e (py "processing stream") ;;; ret Break)].

(** The construction steps at the head of [main] (lines 79-81). *)
Definition construct (env : Environment Storage G)
  : M (SQLDatabase * CompiledAgent) :=
  load_dotenv ;;;
  db <- create_database env ;;
  agent <- create_sql_agent env db ;;
  ret (db, agent).

(** [main] (lines 77-95). *)
Definition main (env : Environment Storage G) (fuel : nat)
  : M (option unit) :=
  built <- construct env ;;
  let '(db, agent) := built in
  question <- get_user_question ;;
  print (nl ++ py "Processing: " ++ question ++ nl) ;;;
  g <- for_in (gen_next agent) stream_body fuel
         (stream agent question {[ "db" := db ]}) ;;
  ret (finished g).

(** The [if __name__ == "__main__":] block (lines 97-104). *)
Definition dunder_main (env : Environment Storage G) (fuel : nat)
  : M (option unit) :=
  try_except (main env fuel)
    [(is_KeyboardInterrupt,
      fun _ =>
        print (nl ++ nl ++ py "Interrupted by user. Exiting...") ;;; exit 0);
     (is_Exception,
      fun e => handle_error e (py "in main execution") ;;; ret (Some tt))].

End SrcL1.
End SrcL1.

(* ===================================================================== *)
(** ** A small concrete installation *)
(* ===================================================================== *)

Module Demo.

(** The database holds the names of the artists. *)
Definition Storage : Type := list str.

(** A generator is the list of snapshots it has still to yield. *)
Definition G : Type := list Step.

Definition str_eqb (a b : str) : bool := bool_decide (a = b).

Definition operational_error (msg : string) : exc :=
  plain (LibraryError "sqlalchemy.exc.OperationalError") (py msg).

(** An engine that knows two statements, can be interrupted during a
    third, and rejects everything else. *)
Definition chinook_run (query : str) (rows : Storage)
  : outcome str * Storage :=
  if str_eqb query (py "SELECT Name FROM Artist") then
    (Return (join (py ", ") rows), rows)
  else if str_eqb query (py "DELETE FROM Artist") then
    (Return [], [])
  else if str_eqb query (py "SELECT sleep()") then
    (Raise (plain KeyboardInterrupt []), rows)
  else
    (Raise (operational_error "syntax error"), rows).

Definition column (n : string) : ReflectedColumn :=
  {| col_name := py n; col_type := py "TEXT" |}.

Definition chinook_columns (table : str) (rows : Storage)
  : outcome (list ReflectedColumn) :=
  if str_eqb table (py "Artist") then
    Return [column "ArtistId"; column "Name"]
  else if str_eqb table (py "Track") then
    Return [column "TrackId"; column "Name"; column "AlbumId"]
  else
    Raise (plain (LibraryError "sqlalchemy.exc.NoSuchTableError") table).

(** The columns of the two tables of [chinook]. *)
Definition chinook_columns_of (table : str) : list ReflectedColumn :=
  if str_eqb table (py "Artist") then [column "ArtistId"; column "Name"]
  else [column "TrackId"; column "Name"; column "AlbumId"].

Definition chinook : SQLDatabase Storage :=
  {| uri := py "sqlite:///Chinook.db";
     engine_run := chinook_run;
     usable_tables := [py "Artist"; py "Track"];
     catalog_columns := chinook_columns |}.

(** A second handle, on another file, that answers every query alike. *)
Definition other : SQLDatabase Storage :=
  {| uri := py "sqlite:///Other.db";
     engine_run := fun _ rows => (Return (py "other"), rows);
     usable_tables := [];
     catalog_columns := fun _ _ => Return [] |}.


Definition bound_to (d : SQLDatabase Storage) : option (Runtime Storage) :=
  Some {| context := Some {| db := d |} |}.

Definition world (r : option (Runtime Storage)) (keys : list StdinEvent)
  : World Storage :=
  {| ambient := r;
     storage := [py "AC/DC"; py "Accept"];
     stdin := keys;
     stdout := [];
     db_calls := [] |}.

Definition ai_message (text : string) : Message :=
  {| pretty_repr := Return (py text) |}.

(** Three snapshots; the second has an empty message list. *)
Definition snapshots : G :=
  [ {[ "messages" := [ai_message "question"] ]};
    {[ "messages" := [] ]};
    {[ "messages" := [ai_message "question"; ai_message "answer"] ]} ].

Definition agent : CompiledAgent Storage G :=
  {| stream := fun _ _ => snapshots;
     gen_next := fun g =>
       match g with
       | [] => ret None
       | step :: rest => ret (Some (step, rest))
       end |}.

(** The script's global names, with a handle that is not the one the runs
    below bind. *)
Definition globals : L1.Globals (Storage:=Storage) (G:=G) :=
  {| L1.global_db := chinook; L1.global_agent := agent |}.

(** An installation whose database file is missing, and one that is
    complete. *)
Definition missing_file : Environment Storage G :=
  {| db_path := py "/app/db/Chinook.db";
     path_exists := fun _ => false;
     from_uri := fun _ => Return chinook;
     create_agent := fun _ => Return agent |}.

Definition installed : Environment Storage G :=
  {| db_path := py "/app/db/Chinook.db";
     path_exists := fun _ => true;
     from_uri := fun _ => Return chinook;
     create_agent := fun _ => Return agent |}.

End Demo.

(** An engine with a random generator of its own, beside the database. *)
Module Entropy.

(** What the engine reads and writes: the names of the artists, which is
    the database, and the state of the engine's random generator, which is
    not. *)
Definition Storage : Type := (list str * N)%type.

Definition database (st : Storage) : list str := fst st.

Definition next_random (state : N) : N :=
  (state * 1103515245 + 12345) mod 2147483648.

Definition digits (n : N) : str :=
  py (DecimalString.NilZero.string_of_uint (N.to_uint n)).

(** [SELECT random()] reads no table and writes none; it answers the next
    number of the generator. *)
Definition sqlite_run (query : str) (st : Storage)
  : outcome str * Storage :=
  if Demo.str_eqb query (py "SELECT random()") then
    (Return (py "[(" ++ digits (next_random (snd st)) ++ py ",)]"),
     (fst st, next_random (snd st)))
  else if Demo.str_eqb query (py "SELECT Name FROM Artist") then
    (Return (join (py ", ") (fst st)), st)
  else
    (Raise (Demo.operational_error "syntax error"), st).

Definition sqlite : SQLDatabase Storage :=
  {| uri := py "sqlite:///Chinook.db";
     engine_run := sqlite_run;
     usable_tables := [py "Artist"];
     catalog_columns :=
       fun _ _ => Return [Demo.column "ArtistId"; Demo.column "Name"] |}.

Definition bound : World Storage :=
  {| ambient := Some {| context := Some {| db := sqlite |} |};
     storage := ([py "AC/DC"; py "Accept"], 42);
     stdin := [];
     stdout := [];
     db_calls := [] |}.

End Entropy.

(* ===================================================================== *)
(** ** Notions the statements are written with *)
(* ===================================================================== *)

Section Notions.

Context {Storage G : Type}.

(** What the tool hands back for what the engine did: the text as it is,
    an ordinary error as ['Error: <message>'], anything else raised on. *)
Definition contained (r : outcome str) : outcome str :=
  match r with
  | Return text => Return text
  | Raise e =>
      if is_Exception e then Return (py "Error: " ++ exc_str e) else Raise e
  end.

(** The line ['- <table>: <col1>, <col2>, ...']. *)
Definition schema_line (table : str) (columns : list ReflectedColumn) : str :=
  py "- " ++ table ++ py ": " ++ join (py ", ") (map col_name columns).

Definition log_calls (cs : list DbCall) (w : World Storage) : World Storage :=
  fold_left (fun acc c => log_call c acc) cs w.

(** The calls a complete summary makes on handle [d]. *)
Definition introspection_calls (d : SQLDatabase Storage) (tables : list str)
  : list DbCall :=
  map (CallColumns (uri d)) tables.

(** The generator expression of the refactored summarizer. *)
Definition line_of (d : SQLDatabase Storage) (table : str) : M Storage str :=
  columns <- inspector_get_columns d table ;;
  ret (py "- " ++ table ++ py ": " ++ join (py ", ") (map col_name columns)).

(** The loop body of the script's summarizer. *)
Definition append_line (d : SQLDatabase Storage) (table_name : str)
           (schema_lines : list str) : M Storage (list str) :=
  columns <- inspector_get_columns d table_name ;;
  let col_names := map col_name columns in
  ret (schema_lines
         ++ [py "- " ++ table_name ++ py ": " ++ join (py ", ") col_names]).


(** [core] is [line] without the white space around it. *)
Definition all_space (s : str) : Prop := forallb isspace s = true.

Definition surrounded (line core : str) : Prop :=
  exists before after,
    line = before ++ core ++ after /\ all_space before /\ all_space after.

Definition trimmed (core : str) : Prop :=
  match core with
  | [] => False
  | c :: _ =>
      isspace c = false
      /\ match last core with
         | Some c' => isspace c' = false
         | None => False
         end
  end.

(** What [handle_error] writes for [e] in [context]. *)
Definition report (context : str) (e : exc) : str :=
  nl ++ py "Error " ++ context ++ py ": " ++ exc_str e ++ nl
  ++ match exc_response_text e with
     | Some text => py "Response: " ++ text ++ nl
     | None => []
     end.

(** The world once [print(f"\nProcessing: {question}\n")] has run. *)
Definition announced (question : str) (w : World Storage) : World Storage :=
  write_stdout (nl ++ py "Processing: " ++ question ++ nl ++ nl) w.

(** From generator state [g] in world [w], the stream yields [n]
    snapshots that are read and rendered, then one on which reading or
    rendering raises the ordinary exception [e]; the generator is then in
    state [g'] and the world is [w']. *)
Inductive stream_fails (agent : CompiledAgent Storage G)
  : nat -> G -> World Storage -> exc -> G -> World Storage -> Prop :=
| fails_here g w step g' w1 e w2 :
    gen_next agent g w = (Return (Some (step, g')), w1) ->
    render_last step w1 = (Raise e, w2) ->
    is_Exception e = true ->
    stream_fails agent 0 g w e g' w2
| fails_later n g w step g1 w1 w2 e g' w' :
    gen_next agent g w = (Return (Some (step, g1)), w1) ->
    render_last step w1 = (Return tt, w2) ->
    stream_fails agent n g1 w2 e g' w' ->
    stream_fails agent (S n) g w e g' w'.

End Notions.

(* ===================================================================== *)
(** ** Notions for the properties beyond the contract of the tool *)
(* ===================================================================== *)

Section RunNotions.

Context {Storage G : Type}.

(** The prompt each variant of [get_user_question] writes. *)
Definition prompt_l1 : str :=
  py "Enter your question (press Enter to use default): "
  ++ nl ++ py "[Default: " ++ L1.default_question ++ py "]"
  ++ nl ++ py "> ".

Definition prompt_src : str :=
  py "Question [" ++ SrcL1.DEFAULT_QUESTION ++ py "]: ".

(** The system prompt [create_sql_agent] builds around a schema. *)
Definition refactored_prompt (schema : str) : str :=
  py "SQL analyst for music database (read-only)." ++ nl
  ++ py "Schema:" ++ nl
  ++ schema ++ nl
  ++ py "Rules:" ++ nl
  ++ py "- Use execute_sql with explicit columns (avoid SELECT *)" ++ nl
  ++ py "- Limit 5 rows unless specified" ++ nl
  ++ py "- Fix and retry on errors".

(** What [print] writes for the texts [texts], one call each. *)
Definition printed (texts : list str) : str :=
  flat_map (fun text => text ++ nl) texts.

(** An agent whose generator writes nothing to standard output itself. *)
Definition quiet (agent : CompiledAgent Storage G) : Prop :=
  forall g w, stdout (snd (gen_next agent g w)) = stdout w.

(** From generator state [g] in world [w], the stream yields snapshots
    whose newest messages render as [texts], each printed as it comes,
    and then ends; the generator is then in state [g'] and the world is
    [w']. *)
Inductive stream_yields (agent : CompiledAgent Storage G)
  : list str -> G -> World Storage -> G -> World Storage -> Prop :=
| yields_end g w w1 :
    gen_next agent g w = (Return None, w1) ->
    stream_yields agent [] g w g w1
| yields_more texts g w step g1 w1 older newest text g' w' :
    gen_next agent g w = (Return (Some (step, g1)), w1) ->
    step !! "messages" = Some (older ++ [newest]) ->
    pretty_repr newest = Return text ->
    stream_yields agent texts g1 (write_stdout (text ++ nl) w1) g' w' ->
    stream_yields agent (text :: texts) g w g' w'.

(** From generator state [g] in world [w], the stream yields [n]
    snapshots that are read and rendered, and the next [next()] raises
    [e], leaving the world [w']. *)
Inductive stream_raises (agent : CompiledAgent Storage G)
  : nat -> G -> World Storage -> exc -> World Storage -> Prop :=
| raises_here g w e w1 :
    gen_next agent g w = (Raise e, w1) ->
    stream_raises agent 0 g w e w1
| raises_later n g w step g1 w1 w2 e w' :
    gen_next agent g w = (Return (Some (step, g1)), w1) ->
    render_last step w1 = (Return tt, w2) ->
    stream_raises agent n g1 w2 e w' ->
    stream_raises agent (S n) g w e w'.

End RunNotions.

(** More installations: agents whose stream ends, fails or is
    interrupted. *)
Module Cases.

Import Demo.

Definition list_next (at_end : M Storage (option (Step * G))) (g : G)
  : M Storage (option (Step * G)) :=
  match g with
  | [] => at_end
  | step :: rest => ret (Some (step, rest))
  end.

Definition two_snapshots : G :=
  [ {[ "messages" := [ai_message "question"] ]};
    {[ "messages" := [ai_message "question"; ai_message "answer"] ]} ].

(** The stream yields two snapshots and ends. *)
Definition answering : CompiledAgent Storage G :=
  {| stream := fun _ _ => two_snapshots;
     gen_next := list_next (ret None) |}.

Definition unauthorized : exc :=
  {| exc_cls := LibraryError "cohere.errors.UnauthorizedError";
     exc_str := py "status_code: 401";
     exc_response_text := Some (py "invalid api token") |}.

(** The model call behind the second [next()] is refused. *)
Definition refused : CompiledAgent Storage G :=
  {| stream := fun _ _ => [ {[ "messages" := [ai_message "question"] ]} ];
     gen_next := list_next (raise unauthorized) |}.

(** The user interrupts the second [next()]. *)
Definition interrupted : CompiledAgent Storage G :=
  {| stream := fun _ _ => [ {[ "messages" := [ai_message "question"] ]} ];
     gen_next := list_next (raise (plain KeyboardInterrupt [])) |}.

(** A tool of the agent calls [exit(3)] during the second [next()]. *)
Definition quitting : CompiledAgent Storage G :=
  {| stream := fun _ _ => [ {[ "messages" := [ai_message "question"] ]} ];
     gen_next := list_next (raise (plain (SystemExit 3) (py "3"))) |}.

Definition installation (a : CompiledAgent Storage G)
  : Environment Storage G :=
  {| db_path := py "/app/db/Chinook.db";
     path_exists := fun _ => true;
     from_uri := fun _ => Return chinook;
     create_agent := fun _ => Return a |}.

Definition script_globals (a : CompiledAgent Storage G)
  : L1.Globals (Storage:=Storage) (G:=G) :=
  {| L1.global_db := chinook; L1.global_agent := a |}.

(** A snapshot without the ["messages"] entry. *)
Definition shapeless : Step := {[ "values" := [ai_message "question"] ]}.

End Cases.

(* ===================================================================== *)
(** ** [src/src/l2.py]: the standalone chat with a response viewer *)
(* ===================================================================== *)

Module SrcL2.
Section SrcL2.

Context {Storage : Type}.
Abbreviation M := (M Storage).

(** A Python value as the viewer uses it: whether it is truthy and what
    [str] gives for it. *)
Record PyValue : Type := { truthy : bool; to_str : str }.

(** A message as the viewer sees it: [type(msg).__name__] and
    [msg.content], [None] when the attribute is missing. *)
Record Msg : Type := {
  type_name : str;
  content : option PyValue
}.

(** A response of the model: itself as a message, what
    [pprint(vars(response))] writes ([None] for an object without
    [__dict__], on which [vars] raises), what
    [pprint(response.response_metadata)] writes ([None] without that
    attribute), and [response.messages] ([None] without that
    attribute). *)
Record Response : Type := {
  as_message : Msg;
  vars_text : option str;
  response_metadata : option str;
  messages : option (list Msg)
}.

Inductive ChatMessage : Type :=
| SystemMessage (text : str)
| HumanMessage (text : str).

(** A chat model: [model.invoke(messages)] answers or raises. *)
Record ChatModel : Type := {
  invoke : list ChatMessage -> outcome Response
}.

(** What the surroundings provide: the constructor [ChatCohere()] and the
    built-in [str.title], which only shapes the prompt text. *)
Record Installation : Type := {
  ChatCohere : outcome ChatModel;
  title : str -> str
}.

Definition DEFAULT_SYSTEM_PROMPT : str :=
  py "You are a helpful geography assistant".

Definition DEFAULT_HUMAN_PROMPT : str :=
  py "What is the capital of Laos?".

(** [a == b] on text. *)
Definition str_eq (a b : str) : bool := bool_decide (a = b).

(** ['-'*50]. *)
Definition rule : str := List.repeat 45 50.

(** [str(i)] for a count. *)
Definition decimal (i : nat) : str :=
  py (DecimalString.NilZero.string_of_uint (Nat.to_uint i)).

(** [pprint(x)], given the text it writes. *)
Definition pprint (text : str) : M unit :=
  fun w => (Return tt, write_stdout text w).

(** [get_prompt] (lines 10-17). *)
Definition get_prompt (inst : Installation) (prompt_type : str) : M str :=
  try_except
    (let default :=
       if str_eq prompt_type (py "system") then DEFAULT_SYSTEM_PROMPT
       else DEFAULT_HUMAN_PROMPT in
     line <- input (title inst prompt_type ++ py " Prompt [" ++ default
                    ++ py "]: ") ;;
     ret (or_ (strip line) default))
    [(is_KeyboardInterrupt_or_EOFError,
      fun _ => print (nl ++ nl ++ py "Exiting...") ;;; exit 0)].

(** [create_agent] (lines 19-30). *)
Definition create_agent (inst : Installation) : M Response :=
  model <- lift (ChatCohere inst) ;;
  system_prompt <- get_prompt inst (py "system") ;;
  human_prompt <- get_prompt inst (py "human") ;;
  let messages :=
    [SystemMessage system_prompt; HumanMessage human_prompt] in
  lift (invoke model messages).

Definition menu : str :=
  nl ++ py "Response Details Menu:" ++ nl
  ++ py "1. Show raw response" ++ nl
  ++ py "2. Show response metadata" ++ nl
  ++ py "3. Show available messages" ++ nl
  ++ py "0. Exit".

(** The line of choice 3 for message number [i]. *)
Definition message_line (i : nat) (msg : Msg) : str :=
  let content_preview :=
    match content msg with
    | Some value => if truthy value then to_str value else py "[No content]"
    | None => py "[No content]"
    end in
  decimal i ++ py ". " ++ type_name msg ++ py ": " ++ content_preview.

(** [enumerate(messages, start)]. *)
Fixpoint enumerate {A} (start : nat) (xs : list A) : list (nat * A) :=
  match xs with
  | [] => []
  | x :: rest => (start, x) :: enumerate (S start) rest
  end.

(** What one choice does, and whether the menu is left. *)
Definition act (response : Response) (choice : str) : M flow :=
  if str_eq choice (py "0") then
    ret Break
  else if str_eq choice (py "1") then
    print (nl ++ py "Raw Response:") ;;;
    match vars_text response with
    | Some text => pprint text
    | None =>
        raise (plain TypeError
                     (py "vars() argument must have __dict__ attribute"))
    end ;;;
    ret Continue
  else if str_eq choice (py "2") then
    print (nl ++ py "Response Metadata:") ;;;
    match response_metadata response with
    | Some text => pprint text
    | None =>
        raise (plain AttributeError
                     (py "'" ++ type_name (as_message response)
                         ++ py "' object has no attribute 'response_metadata'"))
    end ;;;
    ret Continue
  else if str_eq choice (py "3") then
    print (nl ++ py "Available Message Types:" ++ nl ++ rule) ;;;
    let messages :=
      match messages response with
      | Some ms => ms
      | None => [as_message response]
      end in
    for_list (enumerate 1 messages)
             (fun numbered _ => print (message_line (fst numbered)
                                                    (snd numbered)))
             tt ;;;
    ret Continue
  else
    print (nl ++ py "Invalid choice. Please try again.") ;;;
    ret Continue.

(** The [while True:] of the viewer (lines 38-57); [None] when the fuel
    ran out before the menu was left. *)
Fixpoint menu_loop (response : Response) (fuel : nat) : M (option unit) :=
  match fuel with
  | O => ret None
  | S fuel' =>
      print menu ;;;
      line <- input (nl ++ py "Enter your choice (0-3): ") ;;
      f <- act response (strip line) ;;
      match f with
      | Break => ret (Some tt)
      | Continue => menu_loop response fuel'
      end
  end.

(** [interactive_response_viewer] (lines 32-57). *)
Definition interactive_response_viewer (response : Response) (fuel : nat)
  : M (option unit) :=
  match response_metadata response with
  | None =>
      print (py "No detailed metadata available for this response.") ;;;
      ret (Some tt)
  | Some _ => menu_loop response fuel
  end.

(** [handle_error] (lines 59-63). *)
Definition handle_error (e : exc) (context : str) : M unit :=
  print (nl ++ py "Error " ++ context ++ py ": " ++ exc_str e) ;;;
  match exc_response_text e with
  | Some text => print (py "Response: " ++ text)
  | None => ret tt
  end.

(** [response.content] inside the f-string of [main]. *)
Definition content_text (response : Response) : M str :=
  match content (as_message response) with
  | Some value => ret (to_str value)
  | None =>
      raise (plain AttributeError
                   (py "'" ++ type_name (as_message response)
                       ++ py "' object has no attribute 'content'"))
  end.

(** [main] (lines 65-76). *)
Definition main (inst : Installation) (fuel : nat) : M (option unit) :=
  load_dotenv ;;;
  print (nl ++ py "Starting chat with agent..." ++ nl) ;;;
  try_except
    (response <- create_agent inst ;;
     text <- content_text response ;;
     print (nl ++ py "Agent response:" ++ nl ++ rule ++ nl ++ text ++ nl
               ++ rule) ;;;
     interactive_response_viewer response fuel)
    [(is_KeyboardInterrupt,
      fun _ => print (nl ++ py "Operation cancelled by user.") ;;;
               ret (Some tt));
     (is_Exception,
      fun e => handle_error e (py "during agent invocation") ;;;
               ret (Some tt))].

(** The [if __name__ == "__main__":] block (lines 78-85). *)
Definition dunder_main (inst : Installation) (fuel : nat)
  : M (option unit) :=
  try_except (main inst fuel)
    [(is_KeyboardInterrupt,
      fun _ =>
        print (nl ++ nl ++ py "Interrupted by user. Exiting...") ;;; exit 0);
     (is_Exception,
      fun e => handle_error e (py "in main execution") ;;; ret (Some tt))].

End SrcL2.

Arguments ChatModel : clear implicits.
Arguments Installation : clear implicits.

End SrcL2.

(* ===================================================================== *)
(** ** Notions for the standalone chat *)
(* ===================================================================== *)

Section ChatNotions.

Context {Storage : Type}.

(** A computation that returns [a] and does nothing but append to
    standard output. *)
Definition prints_and_returns {A} (m : M Storage A) (a : A) : Prop :=
  forall w, exists out, m w = (Return a, write_stdout out w).

(** The ways the chat can end that its top levels turn into status 0. *)
Definition graceful (o : outcome (option unit)) : Prop :=
  o = Return (Some tt)
  \/ (exists e, o = Raise e /\ is_Exception e || is_KeyboardInterrupt e = true)
  \/ o = Raise (plain (SystemExit 0) (py "0")).

(** The lines choice 3 of the viewer writes for [msgs]. *)
Definition message_lines (msgs : list SrcL2.Msg) : list str :=
  map (fun numbered => SrcL2.message_line (fst numbered) (snd numbered))
      (SrcL2.enumerate 1 msgs).

(** What the viewer writes before it reads a choice. *)
Definition menu_prompt : str :=
  SrcL2.menu ++ nl ++ nl ++ py "Enter your choice (0-3): ".

(** The prompt of [get_prompt] and the default it falls back to. *)
Definition default_for (prompt_type : str) : str :=
  if SrcL2.str_eq prompt_type (py "system") then SrcL2.DEFAULT_SYSTEM_PROMPT
  else SrcL2.DEFAULT_HUMAN_PROMPT.

Definition prompt_for (inst : SrcL2.Installation) (prompt_type : str) : str :=
  SrcL2.title inst prompt_type ++ py " Prompt [" ++ default_for prompt_type
  ++ py "]: ".

(** An exception the top levels have a handler for. *)
Definition handled (e : exc) : bool :=
  is_Exception e || is_KeyboardInterrupt e.

(** Everything the installation can raise is handled. *)
Definition well_behaved (inst : SrcL2.Installation) : Prop :=
  (forall e, SrcL2.ChatCohere inst = Raise e -> handled e = true)
  /\ (forall model conversation e,
         SrcL2.ChatCohere inst = Return model ->
         SrcL2.invoke model conversation = Raise e ->
         handled e = true).

End ChatNotions.

(** A chat installation for the runs below. *)
Module Chat.

Definition Storage : Type := unit.

Definition ai (text : string) : SrcL2.Msg :=
  {| SrcL2.type_name := py "AIMessage";
     SrcL2.content :=
       Some {| SrcL2.truthy := true; SrcL2.to_str := py text |} |}.

Definition vientiane : SrcL2.Response :=
  {| SrcL2.as_message := ai "Vientiane";
     SrcL2.vars_text := Some (py "{'content': 'Vientiane'}" ++ nl);
     SrcL2.response_metadata := Some (py "{'token_count': 7}" ++ nl);
     SrcL2.messages := None |}.

(** The same answer as an object without [__dict__]. *)
Definition slotted : SrcL2.Response :=
  {| SrcL2.as_message := ai "Vientiane";
     SrcL2.vars_text := None;
     SrcL2.response_metadata := Some (py "{'token_count': 7}" ++ nl);
     SrcL2.messages := None |}.

(** The model echoes nothing of the conversation: it always answers
    [vientiane]. *)
Definition cohere : SrcL2.ChatModel :=
  {| SrcL2.invoke := fun _ => Return vientiane |}.

(** [str.title] on the two prompt types the program uses. *)
Definition title_of (s : str) : str :=
  if SrcL2.str_eq s (py "system") then py "System"
  else if SrcL2.str_eq s (py "human") then py "Human"
  else s.

Definition installed : SrcL2.Installation :=
  {| SrcL2.ChatCohere := Return cohere; SrcL2.title := title_of |}.

Definition no_credentials : SrcL2.Installation :=
  {| SrcL2.ChatCohere :=
       Raise (plain (LibraryError "cohere.core.ApiError")
                    (py "no api key"));
     SrcL2.title := title_of |}.

Definition terminal (keys : list StdinEvent) : World Storage :=
  {| ambient := None;
     storage := tt;
     stdin := keys;
     stdout := [];
     db_calls := [] |}.

End Chat.

(* ===================================================================== *)
(** ** The SQL execution tool *)
(* ===================================================================== *)

Section ExecuteSql.

Context {Storage G : Type}.
Implicit Types (w : World Storage) (query : str).

Lemma execute_sql_globals (globals : L1.Globals (Storage:=Storage) (G:=G))
      query :
  L1.execute_sql globals query = SrcL1.execute_sql query.
Proof. reflexivity. Qed.

Lemma execute_sql_bound w rt ctx query :
  ambient w = Some rt ->
  context rt = Some ctx ->
  SrcL1.execute_sql query w =
    (contained (fst (engine_run (db ctx) query (storage w))),
     log_call (CallRun (uri (db ctx)) query)
              (set_storage (snd (engine_run (db ctx) query (storage w))) w)).
Proof.
  intros Hamb Hctx.
  unfold SrcL1.execute_sql, bind, get_runtime. rewrite Hamb.
  unfold context_db. rewrite Hctx. unfold ret at 1.
  unfold try_except, run.
  destruct (engine_run (db ctx) query (storage w)) as [[text|e] st]; simpl.
  - reflexivity.
  - destruct (is_Exception e); reflexivity.
Qed.

Lemma execute_sql_unbound w query :
  ambient w = None ->
  SrcL1.execute_sql query w =
    (Raise (plain RuntimeError
                  (py "Called get_config outside of a runnable context")), w).
Proof.
  intros Hamb. unfold SrcL1.execute_sql, bind, get_runtime.
  rewrite Hamb. reflexivity.
Qed.

Lemma execute_sql_no_context w rt query :
  ambient w = Some rt ->
  context rt = None ->
  SrcL1.execute_sql query w =
    (Raise (plain AttributeError
                  (py "'NoneType' object has no attribute 'db'")), w).
Proof.
  intros Hamb Hctx. unfold SrcL1.execute_sql, bind, get_runtime.
  rewrite Hamb. unfold context_db. rewrite Hctx. reflexivity.
Qed.

End ExecuteSql.

Section ExecuteSqlClaims.

Context {Storage G : Type}.
Implicit Types (w : World Storage) (query : str).
Implicit Types (globals : L1.Globals (Storage:=Storage) (G:=G)).

(** C1: error containment.  With a database bound in the runtime context,
    for every query string: when the round trip to that database raises an
    ordinary execution error [e], the tool returns the text
    ['Error: ' ++ str(e)], and no ordinary exception ever leaves the tool.
    Both variants of the tool behave so. *)
Theorem execute_sql_contains_execution_errors globals w rt ctx query :
  ambient w = Some rt ->
  context rt = Some ctx ->
  (forall e st,
      engine_run (db ctx) query (storage w) = (Raise e, st) ->
      is_Exception e = true ->
      fst (SrcL1.execute_sql query w) = Return (py "Error: " ++ exc_str e)
      /\ fst (L1.execute_sql globals query w)
         = Return (py "Error: " ++ exc_str e))
  /\ (forall e, fst (SrcL1.execute_sql query w) = Raise e ->
                is_Exception e = false)
  /\ (forall e, fst (L1.execute_sql globals query w) = Raise e ->
                is_Exception e = false).
Proof.
  intros Hamb Hctx. rewrite execute_sql_globals.
  rewrite (execute_sql_bound _ _ Hamb Hctx). cbn [fst].
  split; [|split].
  - intros e st Hrun Hexc. rewrite Hrun. cbn [fst contained].
    rewrite Hexc. split; reflexivity.
  - intros e. destruct (fst (engine_run (db ctx) query (storage w))) as [t|e0];
      cbn [contained]; [discriminate|].
    destruct (is_Exception e0) eqn:He0; [discriminate|].
    intros [= <-]. exact He0.
  - intros e. destruct (fst (engine_run (db ctx) query (storage w))) as [t|e0];
      cbn [contained]; [discriminate|].
    destruct (is_Exception e0) eqn:He0; [discriminate|].
    intros [= <-]. exact He0.
Qed.

(** C4: the handle is resolved at call time.  Whatever the module's global
    names hold, the tool queries the handle of the runtime context bound
    when it is called: the one round trip it logs is on that handle, and
    its result and the database contents are that handle's.  With no
    runtime bound, or a runtime without a context, the tool raises and
    queries nothing. *)
Theorem execute_sql_resolves_handle_at_call_time globals w query :
  (forall rt ctx,
      ambient w = Some rt -> context rt = Some ctx ->
      let after := snd (L1.execute_sql globals query w) in
      db_calls after = db_calls w ++ [CallRun (uri (db ctx)) query]
      /\ storage after = snd (engine_run (db ctx) query (storage w))
      /\ fst (L1.execute_sql globals query w)
         = contained (fst (engine_run (db ctx) query (storage w))))
  /\ (ambient w = None ->
      exists e, L1.execute_sql globals query w = (Raise e, w)
                /\ exc_cls e = RuntimeError)
  /\ (forall rt,
      ambient w = Some rt -> context rt = None ->
      exists e, L1.execute_sql globals query w = (Raise e, w)
                /\ exc_cls e = AttributeError)
  /\ L1.execute_sql globals query w = SrcL1.execute_sql query w.
Proof.
  rewrite execute_sql_globals. split; [|split; [|split; [|reflexivity]]].
  - intros rt ctx Hamb Hctx. cbv zeta.
    rewrite (execute_sql_bound _ _ Hamb Hctx). cbn [fst snd].
    repeat split; reflexivity.
  - intros Hamb. eexists. split; [apply execute_sql_unbound, Hamb|reflexivity].
  - intros rt Hamb Hctx. eexists.
    split; [apply (execute_sql_no_context _ _ Hamb Hctx)|reflexivity].
Qed.

(** C8: no truncation at the tool layer.  When the bound database answers
    a query with a text, the tool returns exactly that text; all the tool
    adds to the world is the engine's own effect and the logged call. *)
Theorem execute_sql_returns_engine_text globals w rt ctx query text st :
  ambient w = Some rt ->
  context rt = Some ctx ->
  engine_run (db ctx) query (storage w) = (Return text, st) ->
  SrcL1.execute_sql query w
  = (Return text, log_call (CallRun (uri (db ctx)) query) (set_storage st w))
  /\ L1.execute_sql globals query w = SrcL1.execute_sql query w.
Proof.
  intros Hamb Hctx Hrun. split; [|reflexivity].
  rewrite (execute_sql_bound _ _ Hamb Hctx), Hrun. reflexivity.
Qed.

(** C9, as the code has it: repeatability rests on the engine.  Let
    [database] read the database off what the engine keeps.  If a query
    never changes the database and the engine's answer to it is
    determined by the database alone, then a second invocation of the
    tool right after the first returns (or raises) exactly what the first
    did, and the database is still the same.  The tool keeps nothing
    between invocations: each time its outcome is the outcome of the
    round trip to the bound handle on what the engine kept at that
    moment, an ordinary error turned into its ['Error: '] text. *)
Theorem execute_sql_twice_same_output_when_determined
        {D : Type} (database : Storage -> D) globals w rt ctx query :
  ambient w = Some rt ->
  context rt = Some ctx ->
  (forall st,
      database (snd (engine_run (db ctx) query st)) = database st) ->
  (forall st st',
      database st = database st' ->
      fst (engine_run (db ctx) query st)
      = fst (engine_run (db ctx) query st')) ->
  let first := SrcL1.execute_sql query w in
  let second := SrcL1.execute_sql query (snd first) in
  fst second = fst first
  /\ fst first = contained (fst (engine_run (db ctx) query (storage w)))
  /\ fst second
     = contained (fst (engine_run (db ctx) query (storage (snd first))))
  /\ database (storage (snd second)) = database (storage w)
  /\ L1.execute_sql globals query (snd (L1.execute_sql globals query w))
     = second.
Proof.
  intros Hamb Hctx Hro Hdet. cbv zeta. rewrite !execute_sql_globals.
  rewrite (execute_sql_bound _ _ Hamb Hctx). cbn [fst snd].
  erewrite execute_sql_bound; [|exact Hamb|exact Hctx].
  cbn [fst snd log_call set_storage storage].
  split; [|split; [|split; [|split]]]; try reflexivity.
  - f_equal. apply Hdet. apply Hro.
  - rewrite !Hro. reflexivity.
Qed.

(** C10: interrupts are not contained.  When the round trip raises
    something that is not an [Exception] (a keyboard interrupt, a system
    exit), the tool raises it on unchanged. *)
Theorem execute_sql_propagates_interrupts globals w rt ctx query e st :
  ambient w = Some rt ->
  context rt = Some ctx ->
  engine_run (db ctx) query (storage w) = (Raise e, st) ->
  is_Exception e = false ->
  SrcL1.execute_sql query w
  = (Raise e, log_call (CallRun (uri (db ctx)) query) (set_storage st w))
  /\ L1.execute_sql globals query w = SrcL1.execute_sql query w.
Proof.
  intros Hamb Hctx Hrun Hexc. split; [|reflexivity].
  rewrite (execute_sql_bound _ _ Hamb Hctx), Hrun. cbn [fst snd contained].
  rewrite Hexc. reflexivity.
Qed.

End ExecuteSqlClaims.

(* ===================================================================== *)
(** ** The schema summarizer *)
(* ===================================================================== *)

Section Text.

Lemma split_no_sep sep (s : str) : ~ In sep s -> split sep s = [s].
Proof.
  induction s as [|c s IH]; intros Hnot; [reflexivity|].
  cbn [split]. destruct (N.eqb_spec c sep) as [->|Hne].
  - exfalso. apply Hnot. left. reflexivity.
  - rewrite IH; [reflexivity|]. intros Hin. apply Hnot. right. exact Hin.
Qed.

Lemma split_app_sep sep (p rest : str) :
  ~ In sep p -> split sep (p ++ sep :: rest) = p :: split sep rest.
Proof.
  induction p as [|c p IH]; intros Hnot; cbn [app split].
  - rewrite N.eqb_refl. reflexivity.
  - destruct (N.eqb_spec c sep) as [->|Hne].
    + exfalso. apply Hnot. left. reflexivity.
    + rewrite IH; [reflexivity|]. intros Hin. apply Hnot. right. exact Hin.
Qed.

Lemma split_join sep (parts : list str) :
  parts <> [] ->
  (forall p, In p parts -> ~ In sep p) ->
  split sep (join [sep] parts) = parts.
Proof.
  induction parts as [|p rest IH]; intros Hne Hclean; [congruence|].
  destruct rest as [|q rest].
  - cbn [join]. apply split_no_sep, Hclean. left. reflexivity.
  - change (join [sep] (p :: q :: rest))
      with (p ++ sep :: join [sep] (q :: rest)).
    rewrite split_app_sep by (apply Hclean; left; reflexivity).
    f_equal. apply IH; [discriminate|].
    intros p' Hin. apply Hclean. right. exact Hin.
Qed.

End Text.

Section Summarizer.

Context {Storage : Type}.
Implicit Types (w : World Storage) (d : SQLDatabase Storage).

Lemma log_calls_cons c cs w :
  log_calls (c :: cs) w = log_calls cs (log_call c w).
Proof. reflexivity. Qed.

Lemma log_calls_snoc cs c w :
  log_calls (cs ++ [c]) w = log_call c (log_calls cs w).
Proof. unfold log_calls. rewrite fold_left_app. reflexivity. Qed.

Lemma storage_log_calls cs w : storage (log_calls cs w) = storage w.
Proof.
  revert w. induction cs as [|c cs IH]; intros w; [reflexivity|].
  rewrite log_calls_cons, IH. reflexivity.
Qed.

Lemma db_calls_log_calls cs w : db_calls (log_calls cs w) = db_calls w ++ cs.
Proof.
  revert w. induction cs as [|c cs IH]; intros w.
  - cbn. rewrite app_nil_r. reflexivity.
  - rewrite log_calls_cons, IH. cbn [log_call db_calls].
    rewrite <- app_assoc. reflexivity.
Qed.

Lemma introspection_never_runs d tables :
  List.filter is_run (introspection_calls d tables) = [].
Proof. induction tables as [|t ts IH]; [reflexivity|exact IH]. Qed.

Lemma gen_list_lines d (columns_of : str -> list ReflectedColumn) tables :
  forall w,
    (forall t, In t tables ->
               catalog_columns d t (storage w) = Return (columns_of t)) ->
    gen_list (line_of d) tables w
    = (Return (map (fun t => schema_line t (columns_of t)) tables),
       log_calls (introspection_calls d tables) w).
Proof.
  induction tables as [|t ts IH]; intros w Hok; [reflexivity|].
  cbn [gen_list]. unfold bind at 1. unfold line_of at 1.
  unfold bind at 1. unfold inspector_get_columns at 1.
  rewrite (Hok t) by (left; reflexivity). unfold ret at 1.
  unfold bind at 1. rewrite IH.
  - reflexivity.
  - intros t' Hin. apply Hok. right. exact Hin.
Qed.

Lemma for_list_lines d (columns_of : str -> list ReflectedColumn) tables :
  forall w acc,
    (forall t, In t tables ->
               catalog_columns d t (storage w) = Return (columns_of t)) ->
    for_list tables (append_line d) acc w
    = (Return (acc ++ map (fun t => schema_line t (columns_of t)) tables),
       log_calls (introspection_calls d tables) w).
Proof.
  induction tables as [|t ts IH]; intros w acc Hok.
  - cbn. rewrite app_nil_r. reflexivity.
  - cbn [for_list]. unfold bind at 1. unfold append_line at 1.
    unfold bind at 1. unfold inspector_get_columns at 1.
    rewrite (Hok t) by (left; reflexivity). unfold ret at 1.
    rewrite IH.
    + cbn [map]. rewrite <- app_assoc. reflexivity.
    + intros t' Hin. apply Hok. right. exact Hin.
Qed.



End Summarizer.

Section SummarizerClaims.

Context {Storage : Type}.
Implicit Types (w : World Storage) (d : SQLDatabase Storage).

Lemma get_compact_schema_unfold_src d w :
  SrcL1.get_compact_schema d w
  = (lines <- gen_list (line_of d) (usable_tables d) ;; ret (join nl lines))
      (log_call (CallTableNames (uri d)) w).
Proof. reflexivity. Qed.

Lemma get_compact_schema_unfold_l1 d w :
  L1.get_compact_schema d w
  = (schema_lines <- for_list (usable_tables d) (append_line d) [] ;;
     ret (join nl schema_lines))
      (log_call (CallTableNames (uri d)) w).
Proof. reflexivity. Qed.

(** C2: one line per usable table.  When the catalogue answers the columns
    of every usable table, both summarizers return the lines
    ['- <table>: <col1>, <col2>, ...'], one per usable table in the order
    of the table list, columns in catalogue order, joined by line ends;
    splitting the text at line ends gives back exactly these lines when no
    name holds a line end.  The calls made on the handle are the table
    listing and one column introspection per table: no query is run and
    the database contents are untouched. *)
Theorem get_compact_schema_one_line_per_table
        d w (columns_of : str -> list ReflectedColumn) :
  (forall table, In table (usable_tables d) ->
                 catalog_columns d table (storage w)
                 = Return (columns_of table)) ->
  let lines :=
    map (fun table => schema_line table (columns_of table))
        (usable_tables d) in
  let after :=
    log_calls (CallTableNames (uri d)
               :: introspection_calls d (usable_tables d)) w in
  SrcL1.get_compact_schema d w = (Return (join nl lines), after)
  /\ L1.get_compact_schema d w = (Return (join nl lines), after)
  /\ List.length lines = List.length (usable_tables d)
  /\ (usable_tables d <> [] ->
      (forall line, In line lines -> ~ In 10 line) ->
      split 10 (join nl lines) = lines)
  /\ List.filter is_run (db_calls after) = List.filter is_run (db_calls w)
  /\ storage after = storage w.
Proof.
  intros Hok lines after. subst lines after. repeat split.
  - rewrite get_compact_schema_unfold_src. unfold bind.
    rewrite (gen_list_lines d columns_of); [reflexivity|exact Hok].
  - rewrite get_compact_schema_unfold_l1. unfold bind.
    rewrite (for_list_lines d columns_of); [reflexivity|exact Hok].
  - apply length_map.
  - intros Hne Hclean. apply split_join; [|exact Hclean].
    destruct (usable_tables d); [congruence|discriminate].
  - rewrite db_calls_log_calls, List.filter_app. cbn [List.filter is_run].
    rewrite introspection_never_runs. apply app_nil_r.
  - apply storage_log_calls.
Qed.


End SummarizerClaims.

(* ===================================================================== *)
(** ** The question prompt *)
(* ===================================================================== *)

Section Strip.

Lemma all_space_nil : all_space [].
Proof. reflexivity. Qed.

Lemma all_space_cons c s : all_space (c :: s) <-> isspace c = true /\ all_space s.
Proof. unfold all_space. cbn [forallb]. apply andb_true_iff. Qed.

Lemma all_space_app a b : all_space a -> all_space b -> all_space (a ++ b).
Proof.
  unfold all_space. intros Ha Hb. rewrite forallb_app, Ha, Hb. reflexivity.
Qed.

Lemma lstrip_split (s : str) :
  exists before,
    s = before ++ lstrip s /\ all_space before
    /\ match lstrip s with
       | [] => True
       | c :: _ => isspace c = false
       end.
Proof.
  induction s as [|c s (before & Heq & Hsp & Hhd)].
  - exists []. repeat split.
  - cbn [lstrip]. destruct (isspace c) eqn:Hc.
    + exists (c :: before). repeat split.
      * cbn [app]. f_equal. exact Heq.
      * apply all_space_cons. split; assumption.
      * exact Hhd.
    + exists []. repeat split. exact Hc.
Qed.

Lemma lstrip_nil_iff (s : str) : lstrip s = [] <-> all_space s.
Proof.
  induction s as [|c s IH]; [split; reflexivity|].
  cbn [lstrip]. rewrite all_space_cons. destruct (isspace c).
  - rewrite IH. tauto.
  - split; [discriminate|intros [? _]; discriminate].
Qed.

Lemma rstrip_nil_iff (s : str) : rstrip s = [] <-> all_space s.
Proof.
  induction s as [|c s IH]; [split; reflexivity|].
  cbn [rstrip]. rewrite all_space_cons. destruct (rstrip s) as [|r rs].
  - destruct (isspace c).
    + tauto.
    + split; [discriminate|intros [? _]; discriminate].
  - split; [discriminate|]. intros [_ Hs]. apply IH in Hs. discriminate.
Qed.

Lemma rstrip_split (s : str) :
  exists after,
    s = rstrip s ++ after /\ all_space after
    /\ match last (rstrip s) with
       | Some c => isspace c = false
       | None => rstrip s = []
       end.
Proof.
  induction s as [|c s (after & Heq & Hsp & Hlast)].
  - exists []. repeat split.
  - cbn [rstrip]. destruct (rstrip s) as [|r rs] eqn:Hr.
    + destruct (isspace c) eqn:Hc.
      * exists (c :: after). repeat split.
        -- cbn [app] in *. f_equal. exact Heq.
        -- apply all_space_cons. split; assumption.
      * exists after. repeat split.
        -- cbn [app] in *. f_equal. exact Heq.
        -- exact Hsp.
        -- exact Hc.
    + exists after. repeat split.
      * cbn [app] in *. f_equal. exact Heq.
      * exact Hsp.
      * change (last (c :: r :: rs)) with (last (r :: rs)).
        destruct (last (r :: rs)); [exact Hlast|discriminate].
Qed.

Lemma rstrip_head (c : codepoint) (s : str) :
  isspace c = false -> exists tail, rstrip (c :: s) = c :: tail.
Proof.
  intros Hc. cbn [rstrip]. destruct (rstrip s) as [|r rs].
  - rewrite Hc. exists []. reflexivity.
  - exists (r :: rs). reflexivity.
Qed.

Lemma strip_nil_iff (s : str) : strip s = [] <-> all_space s.
Proof.
  unfold strip. rewrite rstrip_nil_iff.
  destruct (lstrip_split s) as (before & Heq & Hsp & Hhd).
  split.
  - intros Hl. rewrite Heq. apply all_space_app; assumption.
  - intros Hs. apply lstrip_nil_iff in Hs. rewrite Hs. reflexivity.
Qed.

Lemma strip_surrounded (s : str) : surrounded s (strip s).
Proof.
  unfold strip.
  destruct (lstrip_split s) as (before & Heq & Hsp & _).
  destruct (rstrip_split (lstrip s)) as (after & Heq' & Hsp' & _).
  exists before, after. repeat split; [|assumption|assumption].
  rewrite <- Heq'. exact Heq.
Qed.

Lemma strip_trimmed (s : str) : ~ all_space s -> trimmed (strip s).
Proof.
  intros Hns. unfold trimmed.
  destruct (strip s) as [|c core] eqn:Hstrip.
  - apply Hns, strip_nil_iff, Hstrip.
  - unfold strip in Hstrip.
    destruct (lstrip_split s) as (_ & _ & _ & Hhd).
    destruct (rstrip_split (lstrip s)) as (_ & _ & _ & Hlast).
    rewrite Hstrip in Hlast.
    destruct (lstrip s) as [|c0 rest] eqn:Hl; [discriminate|].
    destruct (@rstrip_head c0 rest Hhd) as (tail & Htail).
    rewrite Htail in Hstrip. injection Hstrip as <- _.
    split; [exact Hhd|].
    destruct (last (c0 :: core)) as [c'|]; [exact Hlast|discriminate].
Qed.

Lemma or_strip (line default : str) :
  or_ (strip line) default
  = if forallb isspace line then default else strip line.
Proof.
  destruct (forallb isspace line) eqn:Hsp.
  - apply strip_nil_iff in Hsp. rewrite Hsp. reflexivity.
  - destruct (strip line) eqn:Hstrip; [|reflexivity].
    apply strip_nil_iff in Hstrip. unfold all_space in Hstrip. congruence.
Qed.

(** White space in front of a core that starts with none is determined
    by the line. *)
Lemma leading_space_unique (b1 b2 x1 x2 : str) :
  b1 ++ x1 = b2 ++ x2 ->
  all_space b1 -> all_space b2 ->
  match x1 with [] => False | c :: _ => isspace c = false end ->
  match x2 with [] => False | c :: _ => isspace c = false end ->
  b1 = b2 /\ x1 = x2.
Proof.
  revert b2. induction b1 as [|c1 b1 IH]; intros [|c2 b2] Heq Hb1 Hb2 Hx1 Hx2.
  - split; [reflexivity|exact Heq].
  - cbn [app] in Heq. subst x1. apply all_space_cons in Hb2 as [Hc _].
    congruence.
  - cbn [app] in Heq. subst x2. apply all_space_cons in Hb1 as [Hc _].
    congruence.
  - cbn [app] in Heq. injection Heq as -> Heq.
    apply all_space_cons in Hb1 as [_ Hb1].
    apply all_space_cons in Hb2 as [_ Hb2].
    destruct (IH b2 Heq Hb1 Hb2 Hx1 Hx2) as [-> ->]. split; reflexivity.
Qed.

End Strip.

Section StripUnique.

Lemma all_space_reverse (s : str) : all_space s -> all_space (reverse s).
Proof.
  unfold all_space. rewrite !forallb_forall. intros Hs c Hin.
  apply Hs. apply list_elem_of_In. apply list_elem_of_In in Hin.
  rewrite elem_of_reverse in Hin. exact Hin.
Qed.

Lemma reverse_starts_with_last (core : str) :
  match last core with
  | Some c => isspace c = false
  | None => False
  end ->
  match reverse core with
  | [] => False
  | c :: _ => isspace c = false
  end.
Proof.
  rewrite <- head_reverse. destruct (reverse core); cbn [head]; trivial.
Qed.

(** The stripped core of a line is unique: there is one way to take the
    white space off both ends. *)
Lemma stripped_unique (line c1 c2 : str) :
  surrounded line c1 -> trimmed c1 ->
  surrounded line c2 -> trimmed c2 ->
  c1 = c2.
Proof.
  intros (b1 & a1 & Heq1 & Hb1 & Ha1) Ht1 (b2 & a2 & Heq2 & Hb2 & Ha2) Ht2.
  assert (Hmid : c1 ++ a1 = c2 ++ a2).
  { rewrite Heq1 in Heq2.
    apply (@leading_space_unique b1 b2 _ _ Heq2 Hb1 Hb2).
    - destruct c1; [destruct Ht1|]. exact (proj1 Ht1).
    - destruct c2; [destruct Ht2|]. exact (proj1 Ht2). }
  apply (f_equal reverse) in Hmid. rewrite !reverse_app in Hmid.
  assert (Hrev : reverse c1 = reverse c2).
  { apply (@leading_space_unique (reverse a1) (reverse a2) _ _ Hmid).
    - apply all_space_reverse, Ha1.
    - apply all_space_reverse, Ha2.
    - apply reverse_starts_with_last.
      destruct c1; [destruct Ht1|]. exact (proj2 Ht1).
    - apply reverse_starts_with_last.
      destruct c2; [destruct Ht2|]. exact (proj2 Ht2). }
  apply (f_equal reverse) in Hrev. rewrite !reverse_involutive in Hrev.
  exact Hrev.
Qed.

End StripUnique.

Section QuestionClaims.

Context {Storage : Type}.
Implicit Types (w : World Storage).

Lemma get_user_question_line_src w line rest :
  stdin w = Line line :: rest ->
  fst (SrcL1.get_user_question w)
  = Return (or_ (strip line) SrcL1.DEFAULT_QUESTION).
Proof.
  intros Hin. unfold SrcL1.get_user_question, try_except, bind, input.
  cbn [stdin write_stdout]. rewrite Hin. reflexivity.
Qed.

Lemma get_user_question_line_l1 w line rest :
  stdin w = Line line :: rest ->
  fst (L1.get_user_question w)
  = Return (or_ (strip line) L1.default_question).
Proof.
  intros Hin. unfold L1.get_user_question, bind, input.
  cbn [stdin write_stdout]. rewrite Hin. reflexivity.
Qed.

(** C7: the default question.  When the terminal delivers a line, both
    prompts return the default question text if the line is empty or all
    white space, and otherwise the line without the white space around it:
    a text that starts and ends with a character that is not white space
    and that the line surrounds with white space only. *)
Theorem get_user_question_default_or_stripped w line rest :
  stdin w = Line line :: rest ->
  (all_space line ->
   fst (SrcL1.get_user_question w)
   = Return (py "List top 10 artists with highest tracks")
   /\ fst (L1.get_user_question w)
      = Return (py "List top 10 artists with highest tracks"))
  /\ (~ all_space line ->
      fst (SrcL1.get_user_question w) = Return (strip line)
      /\ fst (L1.get_user_question w) = Return (strip line)
      /\ surrounded line (strip line)
      /\ trimmed (strip line)).
Proof.
  intros Hin.
  rewrite (get_user_question_line_src _ Hin), (get_user_question_line_l1 _ Hin).
  rewrite !or_strip. split.
  - intros Hsp. unfold all_space in Hsp. rewrite Hsp. split; reflexivity.
  - intros Hns. destruct (forallb isspace line) eqn:Hsp.
    + exfalso. apply Hns. exact Hsp.
    + repeat split; [apply strip_surrounded|].
      apply strip_trimmed, Hns.
Qed.

End QuestionClaims.

(* ===================================================================== *)
(** ** Reporting, the streaming loop and the top level *)
(* ===================================================================== *)

Section Reporting.

Context {Storage : Type}.
Implicit Types (w : World Storage).

Lemma write_stdout_twice (a b : str) w :
  write_stdout b (write_stdout a w) = write_stdout (a ++ b) w.
Proof.
  unfold write_stdout. cbn [ambient storage stdin stdout db_calls].
  rewrite <- app_assoc. reflexivity.
Qed.

Lemma handle_error_src (e : exc) (context : str) w :
  SrcL1.handle_error e context w
  = (Return tt, write_stdout (report context e) w).
Proof.
  unfold SrcL1.handle_error, report, bind, print.
  destruct (exc_response_text e) as [text|].
  - rewrite write_stdout_twice. repeat rewrite <- app_assoc. reflexivity.
  - unfold ret. repeat rewrite <- app_assoc. rewrite app_nil_r. reflexivity.
Qed.

Lemma handle_error_l1 (e : exc) (context : str) w :
  L1.handle_error e context w
  = (Return tt, write_stdout (report context e) w).
Proof.
  unfold L1.handle_error, report, print.
  destruct (exc_response_text e) as [text|]; cbn [app join].
  - repeat rewrite <- app_assoc. reflexivity.
  - repeat rewrite <- app_assoc. rewrite app_nil_r. reflexivity.
Qed.

Lemma Exception_not_KeyboardInterrupt (e : exc) :
  is_Exception e = true -> is_KeyboardInterrupt e = false.
Proof.
  unfold is_Exception, is_KeyboardInterrupt.
  destruct (exc_cls e); congruence.
Qed.

Lemma stream_body_continue_src (step : Step) w w2 :
  render_last step w = (Return tt, w2) ->
  SrcL1.stream_body step w = (Return Continue, w2).
Proof.
  intros Hr. unfold SrcL1.stream_body, try_except, bind.
  rewrite Hr. reflexivity.
Qed.

Lemma stream_body_break_src (step : Step) w e w2 :
  render_last step w = (Raise e, w2) ->
  is_Exception e = true ->
  SrcL1.stream_body step w
  = (Return Break, write_stdout (report (py "processing stream") e) w2).
Proof.
  intros Hr He. unfold SrcL1.stream_body, try_except.
  unfold bind at 1. rewrite Hr. cbn [dispatch]. rewrite He.
  unfold bind. rewrite handle_error_src. reflexivity.
Qed.

Lemma stream_body_continue_l1 (step : Step) w w2 :
  render_last step w = (Return tt, w2) ->
  L1.stream_body step w = (Return Continue, w2).
Proof.
  intros Hr. unfold L1.stream_body, try_except, bind.
  rewrite Hr. reflexivity.
Qed.

Lemma stream_body_break_l1 (step : Step) w e w2 :
  render_last step w = (Raise e, w2) ->
  is_Exception e = true ->
  L1.stream_body step w
  = (Return Break, write_stdout (report (py "processing stream") e) w2).
Proof.
  intros Hr He. unfold L1.stream_body, try_except.
  unfold bind at 1. rewrite Hr. cbn [dispatch]. rewrite He.
  unfold bind. rewrite handle_error_l1. reflexivity.
Qed.

End Reporting.

Section Loop.

Context {Storage G : Type}.
Implicit Types (w : World Storage) (g : G).
Implicit Types (agent : CompiledAgent Storage G).

(** Any loop body that goes on after a rendered snapshot and reports and
    breaks on a failed one leaves the loop at the first failure. *)
Lemma for_in_leaves_at_failure agent (body : Step -> M Storage flow) :
  (forall step w w2,
      render_last step w = (Return tt, w2) ->
      body step w = (Return Continue, w2)) ->
  (forall step w e w2,
      render_last step w = (Raise e, w2) ->
      is_Exception e = true ->
      body step w
      = (Return Break, write_stdout (report (py "processing stream") e) w2)) ->
  forall n g w e g' w',
    stream_fails agent n g w e g' w' ->
    forall fuel, (n < fuel)%nat ->
      for_in (gen_next agent) body fuel g w
      = (Return (Some g'),
         write_stdout (report (py "processing stream") e) w').
Proof.
  intros Hgo Hstop n g w e g' w' Hfails.
  induction Hfails as [g w step g' w1 e w2 Hnext Hrender Hexc
                      |n g w step g1 w1 w2 e g' w' Hnext Hrender _ IH];
    intros [|fuel] Hfuel; try lia.
  - cbn [for_in]. unfold bind at 1. rewrite Hnext.
    unfold bind at 1. rewrite (Hstop _ _ _ _ Hrender Hexc). reflexivity.
  - cbn [for_in]. unfold bind at 1. rewrite Hnext.
    unfold bind at 1. rewrite (Hgo _ _ _ Hrender).
    apply IH. lia.
Qed.

End Loop.

Section TopLevel.

Context {Storage G : Type}.
Implicit Types (w : World Storage) (g : G).
Implicit Types (agent : CompiledAgent Storage G).
Implicit Types (env : Environment Storage G).

Lemma print_announces (question : str) w :
  print (nl ++ py "Processing: " ++ question ++ nl) w
  = (Return tt, announced question w).
Proof.
  unfold print, announced. repeat rewrite <- app_assoc. reflexivity.
Qed.

Lemma main_reaches_loop env fuel w0 d agent w1 question w2 :
  SrcL1.construct env w0 = (Return (d, agent), w1) ->
  SrcL1.get_user_question w1 = (Return question, w2) ->
  SrcL1.main env fuel w0
  = (g <- for_in (gen_next agent) SrcL1.stream_body fuel
            (stream agent question {[ "db" := d ]}) ;;
     ret (finished g)) (announced question w2).
Proof.
  intros Hc Hq. unfold SrcL1.main. unfold bind at 1. rewrite Hc.
  unfold bind at 1. rewrite Hq.
  unfold bind at 1. rewrite print_announces. reflexivity.
Qed.

Lemma dunder_main_returns_src env fuel w0 w' :
  SrcL1.main env fuel w0 = (Return (Some tt), w') ->
  SrcL1.dunder_main env fuel w0 = (Return (Some tt), w').
Proof.
  intros Hm. unfold SrcL1.dunder_main, try_except. rewrite Hm. reflexivity.
Qed.

Lemma dunder_main_reaches_loop_l1
      (globals : L1.Globals (Storage:=Storage) (G:=G))
      fuel w0 question w2 g' w' :
  L1.get_user_question w0 = (Return question, w2) ->
  for_in (gen_next (L1.global_agent globals)) L1.stream_body fuel
    (stream (L1.global_agent globals) question
            {[ "db" := L1.global_db globals ]}) (announced question w2)
  = (Return (Some g'), w') ->
  L1.dunder_main globals fuel w0 = (Return (Some tt), w').
Proof.
  intros Hq Hloop. unfold L1.dunder_main, try_except.
  unfold bind at 1. rewrite Hq.
  unfold bind at 1. rewrite print_announces.
  unfold bind at 1. rewrite Hloop. reflexivity.
Qed.

(** C6: a snapshot that cannot be read or rendered ends the loop.  If the
    stream yields [n] snapshots that render and then one on which reading
    or rendering raises an ordinary exception [e], then with fuel for
    [n + 1] iterations the loop of either variant returns normally: it has
    written the report ['Error processing stream: <e>'] after the output
    so far and nothing else, and it leaves the generator where the failing
    snapshot left it, never advanced again.  Run from the top level of
    either program, the process ends normally with exit status 0. *)
Theorem stream_loop_stops_at_render_failure agent n e g' w' fuel :
  (n < fuel)%nat ->
  let reported := write_stdout (report (py "processing stream") e) w' in
  (forall g w,
      stream_fails agent n g w e g' w' ->
      for_in (gen_next agent) SrcL1.stream_body fuel g w
      = (Return (Some g'), reported)
      /\ for_in (gen_next agent) L1.stream_body fuel g w
         = (Return (Some g'), reported)
      /\ exists more,
          stdout reported
          = stdout w' ++ nl ++ py "Error processing stream: "
              ++ exc_str e ++ nl ++ more)
  /\ (forall env w0 d w1 question w2,
         SrcL1.construct env w0 = (Return (d, agent), w1) ->
         SrcL1.get_user_question w1 = (Return question, w2) ->
         stream_fails agent n (stream agent question {[ "db" := d ]})
                      (announced question w2) e g' w' ->
         SrcL1.dunder_main env fuel w0 = (Return (Some tt), reported)
         /\ exit_status (fst (SrcL1.dunder_main env fuel w0)) = Some 0%Z)
  /\ (forall globals w0 question w2,
         L1.global_agent globals = agent ->
         L1.get_user_question w0 = (Return question, w2) ->
         stream_fails agent n
                      (stream agent question
                              {[ "db" := L1.global_db globals ]})
                      (announced question w2) e g' w' ->
         L1.dunder_main globals fuel w0 = (Return (Some tt), reported)
         /\ exit_status (fst (L1.dunder_main globals fuel w0)) = Some 0%Z).
Proof.
  intros Hfuel reported.
  assert (Hsrc : forall g w,
             stream_fails agent n g w e g' w' ->
             for_in (gen_next agent) SrcL1.stream_body fuel g w
             = (Return (Some g'), reported)).
  { intros g w Hfails.
    eapply for_in_leaves_at_failure;
      [apply stream_body_continue_src|apply stream_body_break_src
      |exact Hfails|exact Hfuel]. }
  assert (Hl1 : forall g w,
             stream_fails agent n g w e g' w' ->
             for_in (gen_next agent) L1.stream_body fuel g w
             = (Return (Some g'), reported)).
  { intros g w Hfails.
    eapply for_in_leaves_at_failure;
      [apply stream_body_continue_l1|apply stream_body_break_l1
      |exact Hfails|exact Hfuel]. }
  split; [|split].
  - intros g w Hfails. split; [apply Hsrc, Hfails|].
    split; [apply Hl1, Hfails|].
    eexists. subst reported. unfold write_stdout, report.
    cbn [stdout]. reflexivity.
  - intros env w0 d w1 question w2 Hc Hq Hfails.
    assert (Hd : SrcL1.dunder_main env fuel w0 = (Return (Some tt), reported)).
    { apply dunder_main_returns_src.
      erewrite main_reaches_loop; [|exact Hc|exact Hq]. unfold bind.
      rewrite (Hsrc _ _ Hfails). reflexivity. }
    rewrite Hd. split; reflexivity.
  - intros globals w0 question w2 <- Hq Hfails.
    assert (Hd : L1.dunder_main globals fuel w0 = (Return (Some tt), reported)).
    { eapply dunder_main_reaches_loop_l1; [exact Hq|].
      apply Hl1, Hfails. }
    rewrite Hd. split; reflexivity.
Qed.

End TopLevel.

Section Startup.

Context {Storage G : Type}.
Implicit Types (w : World Storage).
Implicit Types (env : Environment Storage G).

Lemma construct_missing_file env w :
  path_exists env (db_path env) = false ->
  SrcL1.construct env w
  = (Raise (plain FileNotFoundError
                  (py "Database not found: " ++ db_path env)), w).
Proof.
  intros Hmissing. unfold SrcL1.construct, bind, load_dotenv, ret.
  unfold SrcL1.create_database. rewrite Hmissing. reflexivity.
Qed.

Lemma main_construction_failure env fuel w e w' :
  SrcL1.construct env w = (Raise e, w') ->
  SrcL1.main env fuel w = (Raise e, w').
Proof.
  intros Hc. unfold SrcL1.main. unfold bind at 1. rewrite Hc. reflexivity.
Qed.

(** The script variant does not catch a failure of its module-level
    construction: the interpreter ends the process with status 1. *)
Lemma script_construction_failure_uncaught env fuel w e w' :
  L1.module_body env w = (Raise e, w') ->
  is_Exception e = true ->
  L1.script env fuel w = (Raise e, w')
  /\ exit_status (fst (L1.script env fuel w)) = Some 1%Z.
Proof.
  intros Hm He.
  assert (Hs : L1.script env fuel w = (Raise e, w')).
  { unfold L1.script, bind. rewrite Hm. reflexivity. }
  rewrite Hs. split; [reflexivity|].
  unfold exit_status, is_Exception in *. cbn [fst].
  destruct (exc_cls e); first [discriminate He|reflexivity].
Qed.

(** C5, as the code has it: a construction failure is reported and the
    process ends with status 0.  If the construction at the head of [main]
    raises an ordinary exception [e] (the database file is missing, the
    handle or the agent cannot be made), the top level of the refactored
    program catches it, writes ['Error in main execution: <e>'] to
    standard output and ends normally, so the exit status is 0.  A missing
    database file is such a failure, raised before anything else is
    done. *)
Theorem construction_failure_reported_exit_zero env fuel w e w' :
  SrcL1.construct env w = (Raise e, w') ->
  is_Exception e = true ->
  SrcL1.dunder_main env fuel w
  = (Return (Some tt), write_stdout (report (py "in main execution") e) w')
  /\ exit_status (fst (SrcL1.dunder_main env fuel w)) = Some 0%Z
  /\ (exists more,
        stdout (snd (SrcL1.dunder_main env fuel w))
        = stdout w' ++ nl ++ py "Error in main execution: "
            ++ exc_str e ++ nl ++ more)
  /\ (path_exists env (db_path env) = false ->
      e = plain FileNotFoundError (py "Database not found: " ++ db_path env)
      /\ w' = w).
Proof.
  intros Hc He.
  assert (Hd : SrcL1.dunder_main env fuel w
               = (Return (Some tt),
                  write_stdout (report (py "in main execution") e) w')).
  { unfold SrcL1.dunder_main, try_except.
    rewrite (main_construction_failure _ _ _ Hc). cbn [dispatch].
    rewrite (Exception_not_KeyboardInterrupt _ He), He.
    unfold bind. rewrite handle_error_src. reflexivity. }
  rewrite Hd. split; [reflexivity|]. split; [reflexivity|]. split.
  - eexists. unfold write_stdout, report. cbn [snd stdout]. reflexivity.
  - intros Hmissing. rewrite (construct_missing_file _ _ Hmissing) in Hc.
    split; congruence.
Qed.

End Startup.

(* ===================================================================== *)
(** ** Runs of the concrete installation *)
(* ===================================================================== *)

Section Runs.

Import Demo.

(** A syntax error comes back as text. *)
Lemma execute_sql_contains_execution_errors_witness :
  fst (SrcL1.execute_sql (py "SELEC") (world (bound_to chinook) []))
  = Return (py "Error: syntax error")
  /\ fst (L1.execute_sql globals (py "SELEC") (world (bound_to chinook) []))
     = Return (py "Error: syntax error").
Proof.
  refine (proj1 (@execute_sql_contains_execution_errors
                   Storage G globals (world (bound_to chinook) [])
                   {| context := Some {| db := chinook |} |}
                   {| db := chinook |} (py "SELEC") eq_refl eq_refl)
                (operational_error "syntax error")
                [py "AC/DC"; py "Accept"] _ _).
  - vm_compute. reflexivity.
  - reflexivity.
Defined.

(** The script's global handle is [chinook]; a run bound to [other]
    queries [other]. *)
Lemma execute_sql_resolves_handle_at_call_time_witness :
  db_calls (snd (L1.execute_sql globals (py "SELECT 1")
                                (world (bound_to other) [])))
  = [CallRun (py "sqlite:///Other.db") (py "SELECT 1")]
  /\ fst (L1.execute_sql globals (py "SELECT 1") (world (bound_to other) []))
     = Return (py "other")
  /\ returned (fst (L1.execute_sql globals (py "SELECT 1") (world None [])))
     = false.
Proof.
  pose proof (@execute_sql_resolves_handle_at_call_time
                Storage G globals (world (bound_to other) []) (py "SELECT 1"))
    as [Hbound _].
  pose proof (@execute_sql_resolves_handle_at_call_time
                Storage G globals (world None []) (py "SELECT 1"))
    as [_ [Hunbound _]].
  destruct (Hbound _ _ eq_refl eq_refl) as (Hcalls & _ & Hout).
  destruct (Hunbound eq_refl) as (e & He & _).
  split; [exact Hcalls|]. split; [exact Hout|].
  rewrite He. reflexivity.
Defined.

(** Two artists are answered as the engine renders them. *)
Lemma execute_sql_returns_engine_text_witness :
  fst (SrcL1.execute_sql (py "SELECT Name FROM Artist")
                         (world (bound_to chinook) []))
  = Return (py "AC/DC, Accept").
Proof.
  refine (f_equal fst
            (proj1 (@execute_sql_returns_engine_text
                      Storage G globals (world (bound_to chinook) [])
                      {| context := Some {| db := chinook |} |}
                      {| db := chinook |} (py "SELECT Name FROM Artist")
                      (py "AC/DC, Accept") [py "AC/DC"; py "Accept"]
                      eq_refl eq_refl _))).
  vm_compute. reflexivity.
Defined.

(** C9, counterexample: [SELECT random()] changes no table, so the
    database is the same before, between and after two invocations, and
    the two invocations return different texts. *)
Lemma random_query_differs_counterexample :
  (forall st,
      Entropy.database (snd (Entropy.sqlite_run (py "SELECT random()") st))
      = Entropy.database st)
  /\ Entropy.database
       (storage (snd (SrcL1.execute_sql (py "SELECT random()")
                        (snd (SrcL1.execute_sql (py "SELECT random()")
                                                Entropy.bound)))))
     = Entropy.database (storage Entropy.bound)
  /\ fst (SrcL1.execute_sql (py "SELECT random()") Entropy.bound)
     = Return (py "[(1250496027,)]")
  /\ fst (SrcL1.execute_sql (py "SELECT random()")
            (snd (SrcL1.execute_sql (py "SELECT random()") Entropy.bound)))
     = Return (py "[(1116302264,)]")
  /\ fst (SrcL1.execute_sql (py "SELECT random()")
            (snd (SrcL1.execute_sql (py "SELECT random()") Entropy.bound)))
     <> fst (SrcL1.execute_sql (py "SELECT random()") Entropy.bound).
Proof.
  split; [intros [rows state]; reflexivity|].
  split; [vm_compute; reflexivity|].
  split; [vm_compute; reflexivity|].
  split; [vm_compute; reflexivity|].
  vm_compute. discriminate.
Qed.

(** The selection of the names twice, on the engine with a generator. *)
Lemma execute_sql_twice_same_output_when_determined_witness :
  fst (SrcL1.execute_sql (py "SELECT Name FROM Artist")
         (snd (SrcL1.execute_sql (py "SELECT Name FROM Artist")
                                 Entropy.bound)))
  = fst (SrcL1.execute_sql (py "SELECT Name FROM Artist") Entropy.bound)
  /\ fst (SrcL1.execute_sql (py "SELECT Name FROM Artist") Entropy.bound)
     = Return (py "AC/DC, Accept").
Proof.
  destruct (@execute_sql_twice_same_output_when_determined
              Entropy.Storage G (list str) Entropy.database
              {| L1.global_db := Entropy.sqlite;
                 L1.global_agent :=
                   {| stream := fun _ _ => [];
                      gen_next := fun _ => ret None |} |}
              Entropy.bound
              {| context := Some {| db := Entropy.sqlite |} |}
              {| db := Entropy.sqlite |} (py "SELECT Name FROM Artist")
              eq_refl eq_refl)
    as (Hsame & Hfirst & _).
  - intros [rows state]. reflexivity.
  - intros [rows state] [rows' state'] Hrows.
    cbn [Entropy.database fst] in Hrows. subst rows'. reflexivity.
  - split; [exact Hsame|]. rewrite Hfirst. reflexivity.
Defined.

(** An interrupt during the round trip leaves the tool. *)
Lemma execute_sql_propagates_interrupts_witness :
  fst (SrcL1.execute_sql (py "SELECT sleep()") (world (bound_to chinook) []))
  = Raise (plain KeyboardInterrupt []).
Proof.
  refine (f_equal fst
            (proj1 (@execute_sql_propagates_interrupts
                      Storage G globals (world (bound_to chinook) [])
                      {| context := Some {| db := chinook |} |}
                      {| db := chinook |} (py "SELECT sleep()")
                      (plain KeyboardInterrupt [])
                      [py "AC/DC"; py "Accept"] eq_refl eq_refl _ _))).
  - vm_compute. reflexivity.
  - reflexivity.
Defined.

(** The summary of the two tables. *)
Lemma get_compact_schema_one_line_per_table_witness :
  fst (SrcL1.get_compact_schema chinook (world None []))
  = Return (py "- Artist: ArtistId, Name" ++ nl
            ++ py "- Track: TrackId, Name, AlbumId")
  /\ fst (L1.get_compact_schema chinook (world None []))
     = Return (py "- Artist: ArtistId, Name" ++ nl
               ++ py "- Track: TrackId, Name, AlbumId").
Proof.
  assert (Hok : forall table,
             In table (usable_tables chinook) ->
             catalog_columns chinook table (storage (world None []))
             = Return (chinook_columns_of table)).
  { intros table [<-|[<-|[]]]; vm_compute; reflexivity. }
  destruct (@get_compact_schema_one_line_per_table
              Storage chinook (world None []) chinook_columns_of Hok)
    as (Hsrc & Hl1 & _).
  rewrite Hsrc, Hl1. split; vm_compute; reflexivity.
Defined.



(** C5, counterexample: the database file is missing and nobody cancels
    (the terminal delivers nothing, the failure is a [FileNotFoundError]);
    the construction fails and the exit status is 0. *)
Lemma missing_database_exit_status_counterexample :
  fst (SrcL1.construct missing_file (world None []))
  = Raise (plain FileNotFoundError
                 (py "Database not found: /app/db/Chinook.db"))
  /\ stdin (world None []) = []
  /\ exit_status (fst (SrcL1.dunder_main missing_file 1 (world None [])))
     = Some 0%Z
  /\ exit_status (fst (SrcL1.dunder_main missing_file 1 (world None [])))
     <> Some 1%Z.
Proof.
  repeat split; try (vm_compute; reflexivity).
  vm_compute. discriminate.
Qed.

(** The missing file is reported and the process ends with status 0. *)
Lemma construction_failure_reported_exit_zero_witness :
  SrcL1.dunder_main missing_file 1 (world None [])
  = (Return (Some tt),
     write_stdout
       (nl ++ py "Error in main execution: "
           ++ py "Database not found: /app/db/Chinook.db" ++ nl)
       (world None []))
  /\ exit_status (fst (SrcL1.dunder_main missing_file 1 (world None [])))
     = Some 0%Z.
Proof.
  destruct (@construction_failure_reported_exit_zero
              Storage G missing_file 1 (world None [])
              (plain FileNotFoundError
                     (py "Database not found: /app/db/Chinook.db"))
              (world None []) eq_refl eq_refl)
    as (Hrun & Hstatus & _).
  split; [|exact Hstatus]. rewrite Hrun. reflexivity.
Defined.

(** The second snapshot has no message: the loop reports and the
    process ends with status 0. *)
Lemma stream_loop_stops_at_render_failure_witness :
  fst (SrcL1.dunder_main installed 2 (world None [Line (py "  hi ")]))
  = Return (Some tt)
  /\ exit_status (fst (SrcL1.dunder_main installed 2
                         (world None [Line (py "  hi ")])))
     = Some 0%Z.
Proof.
  refine (let H := proj1 (proj2 (@stream_loop_stops_at_render_failure
                     Storage G agent 1 _ _ _ 2 _))
                     installed (world None [Line (py "  hi ")])
                     chinook _ (py "hi") _ _ _ _ in
          conj (f_equal fst (proj1 H)) (proj2 H)).
  - lia.
  - reflexivity.
  - reflexivity.
  - eapply fails_later; [reflexivity|reflexivity|].
    eapply fails_here; reflexivity.
Defined.

(** A padded line is stripped; the default is not used. *)
Lemma get_user_question_default_or_stripped_witness :
  fst (SrcL1.get_user_question (world None
                                      [Line (py "  top 3 albums  ")]))
  = Return (py "top 3 albums")
  /\ fst (SrcL1.get_user_question (world None
                                         [Line (py "   ")]))
     = Return (py "List top 10 artists with highest tracks").
Proof.
  split.
  - refine (eq_trans
              (proj1 (proj2 (@get_user_question_default_or_stripped
                        Storage (world None [Line (py "  top 3 albums  ")])
                        (py "  top 3 albums  ") [] eq_refl) _)) _).
    + vm_compute. discriminate.
    + vm_compute. reflexivity.
  - refine (proj1 (proj1 (@get_user_question_default_or_stripped
                     Storage (world None [Line (py "   ")])
                     (py "   ") [] eq_refl) _)).
    vm_compute. reflexivity.
Defined.

End Runs.

(* ===================================================================== *)
(** ** Further properties: the two summarizers and the two reporters *)
(* ===================================================================== *)

Section Variants.

Context {Storage : Type}.
Implicit Types (w : World Storage) (d : SQLDatabase Storage).

Lemma line_of_outcome d (table : str) w :
  line_of d table w
  = (match catalog_columns d table (storage w) with
     | Return columns => Return (schema_line table columns)
     | Raise e => Raise e
     end, log_call (CallColumns (uri d) table) w).
Proof.
  unfold line_of, bind, inspector_get_columns.
  destruct (catalog_columns d table (storage w)); reflexivity.
Qed.



Lemma log_calls_frame (cs : list DbCall) w :
  stdout (log_calls cs w) = stdout w
  /\ stdin (log_calls cs w) = stdin w
  /\ ambient (log_calls cs w) = ambient w.
Proof.
  revert w. induction cs as [|c cs IH]; intros w; [repeat split|].
  rewrite log_calls_cons.
  destruct (IH (log_call c w)) as (Hout & Hin & Hamb).
  rewrite Hout, Hin, Hamb. repeat split.
Qed.


(** Whether it returns or raises, the summarizer has logged the table
    listing and the introspection of a prefix of the table list. *)
Lemma get_compact_schema_trace d w :
  exists introspected rest,
    usable_tables d = introspected ++ rest
    /\ snd (SrcL1.get_compact_schema d w)
       = log_calls (CallTableNames (uri d)
                    :: introspection_calls d introspected) w.
Proof.
  rewrite get_compact_schema_unfold_src.
  set (w0 := log_call (CallTableNames (uri d)) w).
  assert (Hgen : forall tables w1,
             exists introspected rest,
               tables = introspected ++ rest
               /\ snd (gen_list (line_of d) tables w1)
                  = log_calls (introspection_calls d introspected) w1).
  { induction tables as [|t ts IH]; intros w1.
    - exists [], []. split; reflexivity.
    - cbn [gen_list]. unfold bind at 1. rewrite line_of_outcome.
      destruct (catalog_columns d t (storage w1)) as [columns|e].
      + destruct (IH (log_call (CallColumns (uri d) t) w1))
          as (done & rest & -> & Hw).
        exists (t :: done), rest. split; [reflexivity|].
        unfold bind.
        destruct (gen_list (line_of d) (done ++ rest)
                    (log_call (CallColumns (uri d) t) w1)) as [[ls|e] w2];
          cbn [snd] in *; exact Hw.
      + exists [t], ts. split; reflexivity. }
  destruct (Hgen (usable_tables d) w0) as (done & rest & Htables & Hw).
  exists done, rest. split; [exact Htables|].
  unfold bind.
  destruct (gen_list (line_of d) (usable_tables d) w0) as [[ls|e] w2];
    cbn [snd] in *; exact Hw.
Qed.

(** X2: the summarizer only introspects.  Whether it returns or raises,
    on every handle and in every world the calls it adds to the log are
    the table listing followed by the column introspections of a leading
    part of the table list, one per table in table order; it runs no query
    and leaves the database contents, the terminal and the ambient runtime
    as they were. *)
Theorem get_compact_schema_only_introspects d w :
  let after := snd (SrcL1.get_compact_schema d w) in
  (exists introspected rest,
      usable_tables d = introspected ++ rest
      /\ db_calls after
         = db_calls w ++ CallTableNames (uri d)
                      :: introspection_calls d introspected)
  /\ List.filter is_run (db_calls after) = List.filter is_run (db_calls w)
  /\ storage after = storage w
  /\ stdout after = stdout w
  /\ stdin after = stdin w
  /\ ambient after = ambient w.
Proof.
  cbv zeta.
  destruct (get_compact_schema_trace d w) as (done & rest & Htables & Hafter).
  rewrite Hafter. split.
  - exists done, rest. split; [exact Htables|]. apply db_calls_log_calls.
  - split.
    { rewrite db_calls_log_calls, List.filter_app. cbn [List.filter is_run].
      rewrite introspection_never_runs. apply app_nil_r. }
    split; [apply storage_log_calls|].
    apply log_calls_frame.
Qed.

(** X3: the two reporters write the same bytes.  [handle_error] of the
    script (one [print] of joined lines) and of the refactoring (two
    [print]s) never raise and append the same text to standard output:
    an empty line, ['Error <context>: <e>'], and the line
    ['Response: <text>'] exactly when the exception carries a response
    text; nothing else in the world changes. *)
Theorem handle_error_variants_agree (e : exc) (context : str) w :
  L1.handle_error e context w = SrcL1.handle_error e context w
  /\ SrcL1.handle_error e context w
     = (Return tt,
        write_stdout
          (nl ++ py "Error " ++ context ++ py ": " ++ exc_str e ++ nl
              ++ match exc_response_text e with
                 | Some text => py "Response: " ++ text ++ nl
                 | None => []
                 end) w).
Proof.
  rewrite handle_error_l1, handle_error_src. split; reflexivity.
Qed.

End Variants.

(* ===================================================================== *)
(** ** Further properties: the prompt *)
(* ===================================================================== *)

Section Prompt.

Context {Storage G : Type}.
Implicit Types (w : World Storage).
Implicit Types (env : Environment Storage G).

Lemma default_question_trimmed : trimmed SrcL1.DEFAULT_QUESTION.
Proof. split; reflexivity. Qed.

Lemma question_trimmed (line : str) :
  trimmed (or_ (strip line) SrcL1.DEFAULT_QUESTION).
Proof.
  rewrite or_strip. destruct (forallb isspace line) eqn:Hsp.
  - apply default_question_trimmed.
  - apply strip_trimmed. unfold all_space. congruence.
Qed.

(** X4: a question is never empty or padded.  When the terminal delivers
    a line, both prompts return the same question, which is not empty and
    starts and ends with a character that is not white space; each has
    written its prompt and nothing else, and has taken exactly that one
    line from the terminal. *)
Theorem get_user_question_reads_one_line w (line : str) rest :
  stdin w = Line line :: rest ->
  exists question,
    SrcL1.get_user_question w
    = (Return question, set_stdin rest (write_stdout prompt_src w))
    /\ L1.get_user_question w
       = (Return question, set_stdin rest (write_stdout prompt_l1 w))
    /\ trimmed question.
Proof.
  intros Hin. exists (or_ (strip line) SrcL1.DEFAULT_QUESTION).
  split; [|split].
  - unfold SrcL1.get_user_question, try_except, bind, input.
    cbn [stdin write_stdout]. rewrite Hin. reflexivity.
  - unfold L1.get_user_question, bind, input.
    cbn [stdin write_stdout]. rewrite Hin. reflexivity.
  - apply question_trimmed.
Qed.

Lemma get_user_question_eof_src w :
  stdin w = [] ->
  SrcL1.get_user_question w
  = (Raise (plain (SystemExit 0) (py "0")),
     write_stdout (nl ++ nl ++ py "Exiting..." ++ nl)
                  (write_stdout prompt_src w)).
Proof.
  intros Hin. unfold SrcL1.get_user_question, try_except, bind, input.
  cbn [stdin write_stdout]. rewrite Hin.
  cbn [dispatch is_KeyboardInterrupt_or_EOFError plain exc_cls].
  unfold print, exit, raise, write_stdout, prompt_src.
  cbn [ambient storage stdin stdout db_calls].
  repeat rewrite <- app_assoc. reflexivity.
Qed.

Lemma get_user_question_interrupt_src w rest :
  stdin w = CtrlC :: rest ->
  SrcL1.get_user_question w
  = (Raise (plain (SystemExit 0) (py "0")),
     write_stdout (nl ++ nl ++ py "Exiting..." ++ nl)
                  (set_stdin rest (write_stdout prompt_src w))).
Proof.
  intros Hin. unfold SrcL1.get_user_question, try_except, bind, input.
  cbn [stdin write_stdout]. rewrite Hin.
  cbn [dispatch is_KeyboardInterrupt_or_EOFError plain exc_cls].
  unfold print, exit, raise, write_stdout, set_stdin, prompt_src.
  cbn [ambient storage stdin stdout db_calls].
  repeat rewrite <- app_assoc. reflexivity.
Qed.

Lemma main_stops_at_prompt env fuel w0 d agent w e w' :
  SrcL1.construct env w0 = (Return (d, agent), w) ->
  SrcL1.get_user_question w = (Raise e, w') ->
  SrcL1.main env fuel w0 = (Raise e, w').
Proof.
  intros Hc Hq. unfold SrcL1.main. unfold bind at 1. rewrite Hc.
  unfold bind at 1. rewrite Hq. reflexivity.
Qed.

(** X5: the refactored prompt leaves gracefully.  When the terminal is at
    end of file or delivers an interrupt, [get_user_question] of the
    refactoring writes its prompt, an empty line and ['Exiting...'] and
    raises [SystemExit(0)].  Reached from the top level after a successful
    construction, this ends the process with exit status 0: neither
    handler of the top level takes the exit, nothing more is written and
    no snapshot is ever asked of the agent. *)
Theorem get_user_question_exits_without_input w :
  (stdin w = [] \/ exists rest, stdin w = CtrlC :: rest) ->
  let leaving := SrcL1.get_user_question w in
  fst leaving = Raise (plain (SystemExit 0) (py "0"))
  /\ stdout (snd leaving)
     = stdout w ++ prompt_src ++ nl ++ nl ++ py "Exiting..." ++ nl
  /\ stdin (snd leaving) = tl (stdin w)
  /\ db_calls (snd leaving) = db_calls w
  /\ forall env fuel w0 d agent,
      SrcL1.construct env w0 = (Return (d, agent), w) ->
      SrcL1.dunder_main env fuel w0
      = (Raise (plain (SystemExit 0) (py "0")), snd leaving)
      /\ exit_status (fst (SrcL1.dunder_main env fuel w0)) = Some 0%Z.
Proof.
  intros Hin leaving.
  assert (Hleave : exists w',
             leaving = (Raise (plain (SystemExit 0) (py "0")), w')
             /\ stdout w'
                = stdout w ++ prompt_src ++ nl ++ nl ++ py "Exiting..." ++ nl
             /\ stdin w' = tl (stdin w)
             /\ db_calls w' = db_calls w).
  { subst leaving. destruct Hin as [Hin|[rest Hin]].
    - rewrite (get_user_question_eof_src _ Hin). eexists.
      split; [reflexivity|]. rewrite Hin.
      cbn [write_stdout stdout stdin db_calls tl].
      rewrite <- !app_assoc. repeat split. exact Hin.
    - rewrite (get_user_question_interrupt_src _ Hin). eexists.
      split; [reflexivity|]. rewrite Hin.
      cbn [write_stdout set_stdin stdout stdin db_calls tl].
      rewrite <- !app_assoc. repeat split. }
  destruct Hleave as (w' & Hl & Hout & Hstdin & Hcalls).
  rewrite Hl. cbn [fst snd].
  split; [reflexivity|]. split; [exact Hout|]. split; [exact Hstdin|].
  split; [exact Hcalls|].
  intros env fuel w0 d agent Hc.
  assert (Hd : SrcL1.dunder_main env fuel w0
               = (Raise (plain (SystemExit 0) (py "0")), w')).
  { unfold SrcL1.dunder_main, try_except.
    erewrite main_stops_at_prompt; [|exact Hc|exact Hl]. reflexivity. }
  rewrite Hd. split; reflexivity.
Qed.

(** X6: the script's prompt does not.  [get_user_question] of the script
    has no handler: at end of file it raises [EOFError], on an interrupt
    [KeyboardInterrupt], having written only its prompt.  The script's
    top level catches the first as an ordinary error, reports
    ['Error in main execution: EOF when reading a line'] and ends with
    status 0; the interrupt passes its [except Exception] and the
    interpreter ends the process with status 130. *)
Theorem script_prompt_without_input
        (globals : L1.Globals (Storage:=Storage) (G:=G)) fuel w :
  (stdin w = [] ->
   L1.get_user_question w
   = (Raise (plain EOFError (py "EOF when reading a line")),
      write_stdout prompt_l1 w)
   /\ L1.dunder_main globals fuel w
      = (Return (Some tt),
         write_stdout
           (nl ++ py "Error in main execution: EOF when reading a line" ++ nl)
           (write_stdout prompt_l1 w))
   /\ exit_status (fst (L1.dunder_main globals fuel w)) = Some 0%Z)
  /\ (forall rest,
         stdin w = CtrlC :: rest ->
         L1.get_user_question w
         = (Raise (plain KeyboardInterrupt []),
            set_stdin rest (write_stdout prompt_l1 w))
         /\ L1.dunder_main globals fuel w
            = (Raise (plain KeyboardInterrupt []),
               set_stdin rest (write_stdout prompt_l1 w))
         /\ exit_status (fst (L1.dunder_main globals fuel w)) = Some 130%Z).
Proof.
  split.
  - intros Hin.
    assert (Hq : L1.get_user_question w
                 = (Raise (plain EOFError (py "EOF when reading a line")),
                    write_stdout prompt_l1 w)).
    { unfold L1.get_user_question, bind, input.
      cbn [stdin write_stdout]. rewrite Hin. reflexivity. }
    assert (Hd : L1.dunder_main globals fuel w
                 = (Return (Some tt),
                    write_stdout
                      (nl ++ py "Error in main execution: EOF when reading a line"
                          ++ nl)
                      (write_stdout prompt_l1 w))).
    { unfold L1.dunder_main, try_except. unfold bind at 1. rewrite Hq.
      cbn [dispatch is_Exception plain exc_cls].
      unfold bind. rewrite handle_error_l1. reflexivity. }
    rewrite Hd. repeat split. exact Hq.
  - intros rest Hin.
    assert (Hq : L1.get_user_question w
                 = (Raise (plain KeyboardInterrupt []),
                    set_stdin rest (write_stdout prompt_l1 w))).
    { unfold L1.get_user_question, bind, input.
      cbn [stdin write_stdout]. rewrite Hin. reflexivity. }
    assert (Hd : L1.dunder_main globals fuel w
                 = (Raise (plain KeyboardInterrupt []),
                    set_stdin rest (write_stdout prompt_l1 w))).
    { unfold L1.dunder_main, try_except. unfold bind at 1. rewrite Hq.
      reflexivity. }
    rewrite Hd, Hq. repeat split.
Qed.

End Prompt.

(* ===================================================================== *)
(** ** Further properties: the streaming loop *)
(* ===================================================================== *)

Section Streaming.

Context {Storage G : Type}.
Implicit Types (w : World Storage) (g : G) (step : Step).
Implicit Types (agent : CompiledAgent Storage G).
Implicit Types (env : Environment Storage G).

Lemma render_last_missing_key step w :
  step !! "messages" = None ->
  render_last step w = (Raise (plain KeyError (py "'messages'")), w).
Proof.
  intros Hkey. unfold render_last, bind, getitem, Step in *.
  rewrite Hkey. reflexivity.
Qed.

Lemma render_last_no_message step w :
  step !! "messages" = Some [] ->
  render_last step w
  = (Raise (plain IndexError (py "list index out of range")), w).
Proof.
  intros Hkey. unfold render_last, bind, getitem, Step in *.
  rewrite Hkey. reflexivity.
Qed.

Lemma render_last_newest step w (older : list Message) newest :
  step !! "messages" = Some (older ++ [newest]) ->
  render_last step w = pretty_print newest w.
Proof.
  intros Hkey. unfold render_last, bind, getitem, Step in *.
  rewrite Hkey. unfold ret at 1. unfold last_item. rewrite last_snoc.
  reflexivity.
Qed.

Lemma render_last_prints step w (older : list Message) newest (text : str) :
  step !! "messages" = Some (older ++ [newest]) ->
  pretty_repr newest = Return text ->
  render_last step w = (Return tt, write_stdout (text ++ nl) w).
Proof.
  intros Hkey Htext. erewrite render_last_newest; [|exact Hkey].
  unfold pretty_print. rewrite Htext. reflexivity.
Qed.

Lemma stream_body_variants step w :
  L1.stream_body step w = SrcL1.stream_body step w.
Proof.
  destruct (render_last step w) as [[[]|e] w2] eqn:Hr.
  - rewrite (stream_body_continue_l1 _ _ Hr).
    rewrite (stream_body_continue_src _ _ Hr). reflexivity.
  - destruct (is_Exception e) eqn:He.
    + rewrite (stream_body_break_l1 _ _ Hr He).
      rewrite (stream_body_break_src _ _ Hr He). reflexivity.
    + unfold L1.stream_body, SrcL1.stream_body, try_except, bind.
      rewrite Hr. cbn [dispatch]. rewrite He. reflexivity.
Qed.

(** X7: what one pass of the loop body does with a snapshot.  Of a
    well-shaped snapshot only the newest message is printed, and the loop
    goes on.  A snapshot without a ["messages"] entry is reported as
    ['Error processing stream: 'messages''], one with an empty message
    list as ['Error processing stream: list index out of range'], and a
    newest message that raises an ordinary exception on rendering as that
    exception; each time the loop is left.  Both variants agree. *)
Theorem stream_body_by_shape step w :
  L1.stream_body step w = SrcL1.stream_body step w
  /\ (step !! "messages" = None ->
      SrcL1.stream_body step w
      = (Return Break,
         write_stdout
           (nl ++ py "Error processing stream: 'messages'" ++ nl) w))
  /\ (step !! "messages" = Some [] ->
      SrcL1.stream_body step w
      = (Return Break,
         write_stdout
           (nl ++ py "Error processing stream: list index out of range"
               ++ nl) w))
  /\ (forall older newest,
         step !! "messages" = Some (older ++ [newest]) ->
         SrcL1.stream_body step w
         = match pretty_repr newest with
           | Return text => (Return Continue, write_stdout (text ++ nl) w)
           | Raise e =>
               if is_Exception e
               then (Return Break,
                     write_stdout (report (py "processing stream") e) w)
               else (Raise e, w)
           end).
Proof.
  split; [|split; [|split]].
  - apply stream_body_variants.
  - intros Hkey.
    pose proof (@render_last_missing_key step w Hkey) as Hr.
    rewrite (stream_body_break_src _ _ Hr eq_refl). reflexivity.
  - intros Hkey.
    pose proof (@render_last_no_message step w Hkey) as Hr.
    rewrite (stream_body_break_src _ _ Hr eq_refl). reflexivity.
  - intros older newest Hkey.
    pose proof (@render_last_newest step w older newest Hkey) as Hr.
    unfold pretty_print in Hr.
    destruct (pretty_repr newest) as [text|e].
    + apply stream_body_continue_src. exact Hr.
    + destruct (is_Exception e) eqn:He.
      * apply stream_body_break_src; [exact Hr|exact He].
      * unfold SrcL1.stream_body, try_except, bind.
        rewrite Hr. unfold raise at 1. cbn [dispatch].
        rewrite He. reflexivity.
Qed.

End Streaming.

Section StreamingRuns.

Context {Storage G : Type}.
Implicit Types (w : World Storage) (g : G) (step : Step).
Implicit Types (agent : CompiledAgent Storage G).
Implicit Types (env : Environment Storage G).

Lemma for_in_completes agent (body : Step -> M Storage flow) :
  (forall step w, body step w = SrcL1.stream_body step w) ->
  forall texts g w g' w',
    stream_yields agent texts g w g' w' ->
    forall fuel, (List.length texts < fuel)%nat ->
      for_in (gen_next agent) body fuel g w = (Return (Some g'), w').
Proof.
  intros Hbody texts g w g' w' Hyields.
  induction Hyields as [g w w1 Hnext
                       |texts g w step g1 w1 older newest text g' w'
                          Hnext Hkey Htext _ IH];
    intros [|fuel] Hfuel; cbn [List.length] in Hfuel; try lia.
  - cbn [for_in]. unfold bind. rewrite Hnext. reflexivity.
  - cbn [for_in]. unfold bind at 1. rewrite Hnext.
    unfold bind at 1. rewrite Hbody.
    erewrite stream_body_continue_src;
      [|eapply render_last_prints; [exact Hkey|exact Htext]].
    apply IH. lia.
Qed.

Lemma for_in_propagates agent (body : Step -> M Storage flow) :
  (forall step w, body step w = SrcL1.stream_body step w) ->
  forall n g w e w',
    stream_raises agent n g w e w' ->
    forall fuel, (n < fuel)%nat ->
      for_in (gen_next agent) body fuel g w = (Raise e, w').
Proof.
  intros Hbody n g w e w' Hraises.
  induction Hraises as [g w e w1 Hnext
                       |n g w step g1 w1 w2 e w' Hnext Hrender _ IH];
    intros [|fuel] Hfuel; try lia.
  - cbn [for_in]. unfold bind. rewrite Hnext. reflexivity.
  - cbn [for_in]. unfold bind at 1. rewrite Hnext.
    unfold bind at 1. rewrite Hbody.
    rewrite (stream_body_continue_src _ _ Hrender).
    apply IH. lia.
Qed.

Lemma stream_yields_stdout agent texts g w g' w' :
  quiet agent ->
  stream_yields agent texts g w g' w' ->
  stdout w' = stdout w ++ printed texts.
Proof.
  intros Hquiet Hyields.
  induction Hyields as [g w w1 Hnext
                       |texts g w step g1 w1 older newest text g' w'
                          Hnext Hkey Htext _ IH].
  - specialize (Hquiet g w). rewrite Hnext in Hquiet. cbn [snd] in Hquiet.
    rewrite Hquiet. cbn. rewrite app_nil_r. reflexivity.
  - specialize (Hquiet g w). rewrite Hnext in Hquiet. cbn [snd] in Hquiet.
    rewrite IH. cbn [write_stdout stdout printed flat_map].
    rewrite Hquiet. rewrite <- !app_assoc. reflexivity.
Qed.

Lemma l1_body_is_src step w :
  L1.stream_body step w = SrcL1.stream_body step w.
Proof. apply stream_body_variants. Qed.

(** X8: a stream that ends.  If the stream yields well-shaped snapshots
    whose newest messages render as [texts] and then ends, the loop of
    either variant, given fuel for one iteration more than there are
    snapshots, ends normally once the generator is exhausted.  When the
    agent itself writes nothing, what the loop has added to standard
    output is exactly the newest message of each snapshot, one per line
    group, in the order of the stream: older messages of a snapshot are
    never printed again. *)
Theorem stream_loop_prints_newest_messages agent texts g w g' w' fuel :
  stream_yields agent texts g w g' w' ->
  (List.length texts < fuel)%nat ->
  for_in (gen_next agent) SrcL1.stream_body fuel g w = (Return (Some g'), w')
  /\ for_in (gen_next agent) L1.stream_body fuel g w = (Return (Some g'), w')
  /\ (quiet agent -> stdout w' = stdout w ++ printed texts).
Proof.
  intros Hyields Hfuel. split; [|split].
  - eapply for_in_completes; [reflexivity|exact Hyields|exact Hfuel].
  - eapply for_in_completes; [apply l1_body_is_src|exact Hyields|exact Hfuel].
  - intros Hquiet. eapply stream_yields_stdout; eassumption.
Qed.

End StreamingRuns.

(* ===================================================================== *)
(** ** Further properties: whole runs and the exit status *)
(* ===================================================================== *)

Section WholeRuns.

Context {Storage G : Type}.
Implicit Types (w : World Storage) (g : G) (step : Step).
Implicit Types (agent : CompiledAgent Storage G).
Implicit Types (env : Environment Storage G).

Lemma main_after_loop env fuel w0 d agent w1 (question : str) w2 o w' :
  SrcL1.construct env w0 = (Return (d, agent), w1) ->
  SrcL1.get_user_question w1 = (Return question, w2) ->
  for_in (gen_next agent) SrcL1.stream_body fuel
         (stream agent question {[ "db" := d ]}) (announced question w2)
  = (o, w') ->
  SrcL1.main env fuel w0
  = (match o with
     | Return r => Return (finished r)
     | Raise e => Raise e
     end, w').
Proof.
  intros Hc Hq Hloop.
  erewrite main_reaches_loop; [|exact Hc|exact Hq].
  unfold bind. rewrite Hloop. destruct o; reflexivity.
Qed.

Lemma script_block_after_loop
      (globals : L1.Globals (Storage:=Storage) (G:=G))
      fuel w0 (question : str) w2 e w' :
  L1.get_user_question w0 = (Return question, w2) ->
  for_in (gen_next (L1.global_agent globals)) L1.stream_body fuel
    (stream (L1.global_agent globals) question
            {[ "db" := L1.global_db globals ]}) (announced question w2)
  = (Raise e, w') ->
  L1.dunder_main globals fuel w0
  = if is_Exception e
    then (Return (Some tt),
          write_stdout (report (py "in main execution") e) w')
    else (Raise e, w').
Proof.
  intros Hq Hloop. unfold L1.dunder_main, try_except.
  unfold bind at 1. rewrite Hq.
  unfold bind at 1. rewrite print_announces.
  unfold bind at 1. rewrite Hloop. cbn [dispatch].
  destruct (is_Exception e); [|reflexivity].
  unfold bind. rewrite handle_error_l1. reflexivity.
Qed.

Lemma dunder_main_by_outcome env fuel w o w' :
  SrcL1.main env fuel w = (o, w') ->
  SrcL1.dunder_main env fuel w
  = match o with
    | Return r => (Return r, w')
    | Raise e =>
        if is_KeyboardInterrupt e
        then (Raise (plain (SystemExit 0) (py "0")),
              write_stdout
                (nl ++ nl ++ py "Interrupted by user. Exiting..." ++ nl) w')
        else if is_Exception e
        then (Return (Some tt),
              write_stdout (report (py "in main execution") e) w')
        else (Raise e, w')
    end.
Proof.
  intros Hm. unfold SrcL1.dunder_main, try_except. rewrite Hm.
  destruct o as [r|e]; [reflexivity|]. cbn [dispatch].
  destruct (is_KeyboardInterrupt e).
  - unfold bind, print, exit, raise, write_stdout.
    cbn [ambient storage stdin stdout db_calls].
    repeat rewrite <- app_assoc. reflexivity.
  - destruct (is_Exception e); [|reflexivity].
    unfold bind. rewrite handle_error_src. reflexivity.
Qed.

(** X9: a complete run.  After a successful construction and a delivered
    line, if the stream yields well-shaped snapshots and ends, the
    refactored program (and likewise the script's main block) ends
    normally with exit status 0, given fuel for one iteration more than
    there are snapshots.  With an agent that writes nothing itself, what
    the run has written after the prompt is an empty line,
    ['Processing: <question>'], an empty line and then the newest message
    of each snapshot in order. *)
Theorem complete_run_prints_and_exits_zero agent texts g' w' fuel :
  (List.length texts < fuel)%nat ->
  (forall env w0 d w1 (question : str) w2,
      SrcL1.construct env w0 = (Return (d, agent), w1) ->
      SrcL1.get_user_question w1 = (Return question, w2) ->
      stream_yields agent texts (stream agent question {[ "db" := d ]})
                    (announced question w2) g' w' ->
      SrcL1.dunder_main env fuel w0 = (Return (Some tt), w')
      /\ exit_status (fst (SrcL1.dunder_main env fuel w0)) = Some 0%Z
      /\ (quiet agent ->
          stdout w'
          = stdout w2 ++ nl ++ py "Processing: " ++ question ++ nl ++ nl
              ++ printed texts))
  /\ (forall (globals : L1.Globals (Storage:=Storage) (G:=G)) w0
             (question : str) w2,
         L1.global_agent globals = agent ->
         L1.get_user_question w0 = (Return question, w2) ->
         stream_yields agent texts
                       (stream agent question
                               {[ "db" := L1.global_db globals ]})
                       (announced question w2) g' w' ->
         L1.dunder_main globals fuel w0 = (Return (Some tt), w')
         /\ exit_status (fst (L1.dunder_main globals fuel w0)) = Some 0%Z
         /\ (quiet agent ->
             stdout w'
             = stdout w2 ++ nl ++ py "Processing: " ++ question ++ nl ++ nl
                 ++ printed texts)).
Proof.
  intros Hfuel. split.
  - intros env w0 d w1 question w2 Hc Hq Hyields.
    assert (Hloop : for_in (gen_next agent) SrcL1.stream_body fuel
                           (stream agent question {[ "db" := d ]})
                           (announced question w2)
                    = (Return (Some g'), w')).
    { eapply for_in_completes; [reflexivity|exact Hyields|exact Hfuel]. }
    assert (Hd : SrcL1.dunder_main env fuel w0 = (Return (Some tt), w')).
    { eapply main_after_loop in Hloop; [|exact Hc|exact Hq].
      apply dunder_main_by_outcome in Hloop. exact Hloop. }
    rewrite Hd. split; [reflexivity|]. split; [reflexivity|].
    intros Hquiet.
    erewrite stream_yields_stdout; [|exact Hquiet|exact Hyields].
    unfold announced. cbn [write_stdout stdout].
    rewrite <- !app_assoc. reflexivity.
  - intros globals w0 question w2 <- Hq Hyields.
    assert (Hloop : for_in (gen_next (L1.global_agent globals))
                           L1.stream_body fuel
                           (stream (L1.global_agent globals) question
                                   {[ "db" := L1.global_db globals ]})
                           (announced question w2)
                    = (Return (Some g'), w')).
    { eapply for_in_completes;
        [apply l1_body_is_src|exact Hyields|exact Hfuel]. }
    assert (Hd : L1.dunder_main globals fuel w0 = (Return (Some tt), w')).
    { eapply dunder_main_reaches_loop_l1; [exact Hq|exact Hloop]. }
    rewrite Hd. split; [reflexivity|]. split; [reflexivity|].
    intros Hquiet.
    erewrite stream_yields_stdout; [|exact Hquiet|exact Hyields].
    unfold announced. cbn [write_stdout stdout].
    rewrite <- !app_assoc. reflexivity.
Qed.

(** X10: a failure of the agent itself.  If the stream yields [n]
    snapshots that render and the next [next()] raises [e] (a refused
    model call, a lost connection, an interrupt), the loop of either
    variant does not report it: the exception leaves the loop.  At the top
    level of the refactored program an ordinary [e] is reported as
    ['Error in main execution: <e>'] and the process ends with status 0;
    a [KeyboardInterrupt] gives ['Interrupted by user. Exiting...'] and
    [SystemExit(0)], status 0 again. *)
Theorem agent_failure_reaches_top_level agent n e w' fuel :
  (n < fuel)%nat ->
  (forall g w,
      stream_raises agent n g w e w' ->
      for_in (gen_next agent) SrcL1.stream_body fuel g w = (Raise e, w')
      /\ for_in (gen_next agent) L1.stream_body fuel g w = (Raise e, w'))
  /\ (forall env w0 d w1 (question : str) w2,
         SrcL1.construct env w0 = (Return (d, agent), w1) ->
         SrcL1.get_user_question w1 = (Return question, w2) ->
         stream_raises agent n (stream agent question {[ "db" := d ]})
                       (announced question w2) e w' ->
         (is_Exception e = true ->
          SrcL1.dunder_main env fuel w0
          = (Return (Some tt),
             write_stdout (report (py "in main execution") e) w')
          /\ exit_status (fst (SrcL1.dunder_main env fuel w0)) = Some 0%Z)
         /\ (is_KeyboardInterrupt e = true ->
             SrcL1.dunder_main env fuel w0
             = (Raise (plain (SystemExit 0) (py "0")),
                write_stdout
                  (nl ++ nl ++ py "Interrupted by user. Exiting..." ++ nl)
                  w')
             /\ exit_status (fst (SrcL1.dunder_main env fuel w0))
                = Some 0%Z)).
Proof.
  intros Hfuel. split.
  - intros g w Hraises. split.
    + eapply for_in_propagates; [reflexivity|exact Hraises|exact Hfuel].
    + eapply for_in_propagates;
        [apply l1_body_is_src|exact Hraises|exact Hfuel].
  - intros env w0 d w1 question w2 Hc Hq Hraises.
    assert (Hloop : for_in (gen_next agent) SrcL1.stream_body fuel
                           (stream agent question {[ "db" := d ]})
                           (announced question w2)
                    = (Raise e, w')).
    { eapply for_in_propagates; [reflexivity|exact Hraises|exact Hfuel]. }
    assert (Hd := Hloop).
    eapply main_after_loop in Hd; [|exact Hc|exact Hq].
    apply dunder_main_by_outcome in Hd. cbv beta iota in Hd. split.
    + intros He. rewrite (Exception_not_KeyboardInterrupt _ He), He in Hd.
      rewrite Hd. split; reflexivity.
    + intros Hki. rewrite Hki in Hd. rewrite Hd. split; reflexivity.
Qed.

(** X11: the script and an interrupted stream.  In the script the same
    failure of the agent is reported as ['Error in main execution: <e>']
    with status 0 when [e] is an ordinary exception; a
    [KeyboardInterrupt] is not caught by the script's [except Exception]:
    it leaves the main block with nothing written for it and the
    interpreter ends the process with status 130. *)
Theorem script_agent_failure
        (globals : L1.Globals (Storage:=Storage) (G:=G))
        n e w' fuel w0 (question : str) w2 :
  (n < fuel)%nat ->
  L1.get_user_question w0 = (Return question, w2) ->
  stream_raises (L1.global_agent globals) n
                (stream (L1.global_agent globals) question
                        {[ "db" := L1.global_db globals ]})
                (announced question w2) e w' ->
  (is_Exception e = true ->
   L1.dunder_main globals fuel w0
   = (Return (Some tt), write_stdout (report (py "in main execution") e) w')
   /\ exit_status (fst (L1.dunder_main globals fuel w0)) = Some 0%Z)
  /\ (is_KeyboardInterrupt e = true ->
      L1.dunder_main globals fuel w0 = (Raise e, w')
      /\ exit_status (fst (L1.dunder_main globals fuel w0)) = Some 130%Z).
Proof.
  intros Hfuel Hq Hraises.
  assert (Hloop : for_in (gen_next (L1.global_agent globals))
                         L1.stream_body fuel
                         (stream (L1.global_agent globals) question
                                 {[ "db" := L1.global_db globals ]})
                         (announced question w2)
                  = (Raise e, w')).
  { eapply for_in_propagates;
      [apply l1_body_is_src|exact Hraises|exact Hfuel]. }
  assert (Hd := Hloop).
  eapply script_block_after_loop in Hd; [|exact Hq].
  split.
  - intros He. rewrite He in Hd. rewrite Hd. split; reflexivity.
  - intros Hki.
    assert (He : is_Exception e = false).
    { unfold is_Exception, is_KeyboardInterrupt in *.
      destruct (exc_cls e); congruence. }
    rewrite He in Hd. rewrite Hd. split; [reflexivity|].
    unfold exit_status, is_KeyboardInterrupt in *. cbn [fst].
    destruct (exc_cls e); congruence.
Qed.

(** X12: what the top level of the refactored program makes of the
    way [main] ends.  If [main] returns, the process ends with status 0.
    If [main] raises an ordinary exception, it is reported as
    ['Error in main execution: <e>'] and the status is 0.  If [main]
    raises a [KeyboardInterrupt], ['Interrupted by user. Exiting...'] is
    written and [SystemExit(0)] raised, status 0 again.  Every other
    exception ([SystemExit], [GeneratorExit]) passes the top level as it
    is: the same exception leaves the program and nothing is written for
    it. *)
Theorem dunder_main_exit_status env fuel w o w' :
  SrcL1.main env fuel w = (o, w') ->
  (o = Return (Some tt) ->
   SrcL1.dunder_main env fuel w = (Return (Some tt), w')
   /\ exit_status (fst (SrcL1.dunder_main env fuel w)) = Some 0%Z)
  /\ (forall e,
         o = Raise e -> is_Exception e = true ->
         SrcL1.dunder_main env fuel w
         = (Return (Some tt),
            write_stdout (report (py "in main execution") e) w')
         /\ exit_status (fst (SrcL1.dunder_main env fuel w)) = Some 0%Z)
  /\ (forall e,
         o = Raise e -> is_KeyboardInterrupt e = true ->
         SrcL1.dunder_main env fuel w
         = (Raise (plain (SystemExit 0) (py "0")),
            write_stdout
              (nl ++ nl ++ py "Interrupted by user. Exiting..." ++ nl) w')
         /\ exit_status (fst (SrcL1.dunder_main env fuel w)) = Some 0%Z)
  /\ (forall e,
         o = Raise e ->
         is_Exception e = false -> is_KeyboardInterrupt e = false ->
         SrcL1.dunder_main env fuel w = (Raise e, w')).
Proof.
  intros Hm. apply dunder_main_by_outcome in Hm.
  split; [|split; [|split]].
  - intros ->. rewrite Hm. split; reflexivity.
  - intros e -> He.
    rewrite (Exception_not_KeyboardInterrupt _ He), He in Hm.
    rewrite Hm. split; reflexivity.
  - intros e -> Hki. rewrite Hki in Hm. rewrite Hm. split; reflexivity.
  - intros e -> He Hki. rewrite Hki, He in Hm. exact Hm.
Qed.

End WholeRuns.

(* ===================================================================== *)
(** ** Further properties: construction and the tool's footprint *)
(* ===================================================================== *)

Section Construction.

Context {Storage G : Type}.
Implicit Types (w : World Storage) (d : SQLDatabase Storage).
Implicit Types (agent : CompiledAgent Storage G).
Implicit Types (env : Environment Storage G).

Lemma schema_of_columns d w (columns_of : str -> list ReflectedColumn) :
  (forall table, In table (usable_tables d) ->
                 catalog_columns d table (storage w)
                 = Return (columns_of table)) ->
  SrcL1.get_compact_schema d w
  = (Return (join nl (map (fun table => schema_line table (columns_of table))
                          (usable_tables d))),
     log_calls (CallTableNames (uri d)
                :: introspection_calls d (usable_tables d)) w).
Proof.
  intros Hok. rewrite get_compact_schema_unfold_src. unfold bind.
  rewrite (gen_list_lines d columns_of); [reflexivity|exact Hok].
Qed.

Lemma construct_unfold env w :
  SrcL1.construct env w
  = if path_exists env (db_path env) then
      match from_uri env (py "sqlite:///" ++ db_path env) with
      | Raise e => (Raise e, w)
      | Return d =>
          match SrcL1.get_compact_schema d w with
          | (Raise e, w1) => (Raise e, w1)
          | (Return schema, w1) =>
              match create_agent env (refactored_prompt schema) with
              | Return agent => (Return (d, agent), w1)
              | Raise e => (Raise e, w1)
              end
          end
      end
    else
      (Raise (plain FileNotFoundError
                    (py "Database not found: " ++ db_path env)), w).
Proof.
  unfold SrcL1.construct, SrcL1.create_database, SrcL1.create_sql_agent.
  unfold bind, load_dotenv, ret, lift, raise, refactored_prompt.
  destruct (path_exists env (db_path env)); cbv beta iota zeta delta [negb];
    [|reflexivity].
  destruct (from_uri env (py "sqlite:///" ++ db_path env)) as [d|e];
    cbv beta iota zeta; [|reflexivity].
  destruct (SrcL1.get_compact_schema d w) as [[schema|e] w1];
    cbv beta iota zeta; [|reflexivity].
  destruct (create_agent env _); reflexivity.
Qed.

(** Construction changes the world only through the summarizer. *)
Lemma construct_world env w :
  snd (SrcL1.construct env w) = w
  \/ exists d, snd (SrcL1.construct env w)
               = snd (SrcL1.get_compact_schema d w).
Proof.
  rewrite construct_unfold.
  destruct (path_exists env (db_path env)); [|left; reflexivity].
  destruct (from_uri env (py "sqlite:///" ++ db_path env)) as [d|e];
    [|left; reflexivity].
  right. exists d.
  destruct (SrcL1.get_compact_schema d w) as [[schema|e] w1];
    [|reflexivity].
  destruct (create_agent env _); reflexivity.
Qed.

(** X13: what a successful construction is made of.  When the database
    file exists, [SQLDatabase.from_uri] answers a handle for
    ['sqlite:///<db_path>'], every usable table can be introspected and
    the agent can be made, [construct] returns that handle and the agent
    made for the system prompt that carries the schema summary of that
    very handle between ['Schema:'] and ['Rules:']; all it has done to the
    world is the table listing and one column introspection per table. *)
Theorem construct_builds_agent_from_schema
        env w d (columns_of : str -> list ReflectedColumn) agent :
  path_exists env (db_path env) = true ->
  from_uri env (py "sqlite:///" ++ db_path env) = Return d ->
  (forall table, In table (usable_tables d) ->
                 catalog_columns d table (storage w)
                 = Return (columns_of table)) ->
  create_agent env
    (refactored_prompt
       (join nl (map (fun table => schema_line table (columns_of table))
                     (usable_tables d))))
  = Return agent ->
  SrcL1.construct env w
  = (Return (d, agent),
     log_calls (CallTableNames (uri d)
                :: introspection_calls d (usable_tables d)) w).
Proof.
  intros Hexists Huri Hok Hagent.
  rewrite construct_unfold, Hexists, Huri.
  erewrite schema_of_columns; [|exact Hok].
  rewrite Hagent. reflexivity.
Qed.

(** X14: construction has no side effects beyond introspection.  For
    every installation and every world, whether [construct] returns or
    raises, it has run no query, the database contents are what they
    were, and nothing was written to or read from the terminal. *)
Theorem construct_runs_no_query env w :
  let after := snd (SrcL1.construct env w) in
  List.filter is_run (db_calls after) = List.filter is_run (db_calls w)
  /\ storage after = storage w
  /\ stdout after = stdout w
  /\ stdin after = stdin w.
Proof.
  cbv zeta. destruct (construct_world env w) as [->|[d ->]].
  - repeat split.
  - destruct (get_compact_schema_trace d w) as (done & rest & _ & ->).
    split.
    { rewrite db_calls_log_calls, List.filter_app. cbn [List.filter is_run].
      rewrite introspection_never_runs. apply app_nil_r. }
    split; [apply storage_log_calls|].
    destruct (log_calls_frame
                (CallTableNames (uri d) :: introspection_calls d done) w)
      as (Hout & Hin & _).
    split; assumption.
Qed.

(** X15: the script opens a fixed relative URI.  The module-level
    construction of the script never looks at [db_path] or at whether a
    file exists: two installations with the same [SQLDatabase.from_uri]
    and the same [create_agent] construct the same globals, and the URI
    handed to [from_uri] is always ['sqlite:///Chinook.db'].  A refusal
    of [from_uri] leaves the script before anything is introspected. *)
Theorem script_construction_ignores_db_path env env' w :
  from_uri env = from_uri env' ->
  create_agent env = create_agent env' ->
  L1.module_body env w = L1.module_body env' w
  /\ (forall e,
         from_uri env (py "sqlite:///Chinook.db") = Raise e ->
         L1.module_body env w = (Raise e, w))
  /\ (forall d (columns_of : str -> list ReflectedColumn) agent,
         from_uri env (py "sqlite:///Chinook.db") = Return d ->
         (forall table, In table (usable_tables d) ->
                        catalog_columns d table (storage w)
                        = Return (columns_of table)) ->
         create_agent env
           (L1.SYSTEM_PROMPT
              (join nl (map (fun table =>
                               schema_line table (columns_of table))
                            (usable_tables d))))
         = Return agent ->
         L1.module_body env w
         = (Return {| L1.global_db := d; L1.global_agent := agent |},
            log_calls (CallTableNames (uri d)
                       :: introspection_calls d (usable_tables d)) w)).
Proof.
  intros Huri Hagent. split; [|split].
  - unfold L1.module_body. rewrite Huri, Hagent. reflexivity.
  - intros e He. unfold L1.module_body, bind, load_dotenv, ret, lift.
    rewrite He. reflexivity.
  - intros d columns_of agent Hd Hok Ha.
    unfold L1.module_body, bind, load_dotenv, ret. unfold lift at 1.
    rewrite Hd. rewrite get_compact_schema_unfold_l1. unfold bind at 1.
    rewrite (for_list_lines d columns_of); [|exact Hok].
    cbn [app]. unfold ret at 1. unfold lift.
    rewrite Ha. reflexivity.
Qed.

End Construction.

Section ToolFootprint.

Context {Storage : Type}.
Implicit Types (w : World Storage) (query : str).

(** X16: the footprint of the tool.  On every query and in every world,
    bound or not, [execute_sql] writes nothing to standard output, reads
    nothing from the terminal and leaves the ambient runtime as it is;
    it makes at most one call on a handle, a [run] of the query exactly
    as it was given, so nothing is rewritten, clamped or filtered on the
    way to the engine. *)
Theorem execute_sql_footprint query w :
  let after := snd (SrcL1.execute_sql query w) in
  stdout after = stdout w
  /\ stdin after = stdin w
  /\ ambient after = ambient w
  /\ (db_calls after = db_calls w /\ storage after = storage w
      \/ exists on, db_calls after = db_calls w ++ [CallRun on query]).
Proof.
  cbv zeta. destruct (ambient w) as [rt|] eqn:Hamb.
  - destruct (context rt) as [ctx|] eqn:Hctx.
    + erewrite execute_sql_bound; [|exact Hamb|exact Hctx].
      cbn [snd log_call set_storage stdout stdin ambient db_calls].
      repeat split; try assumption. right. eexists. reflexivity.
    + erewrite execute_sql_no_context; [|exact Hamb|exact Hctx].
      cbn [snd]. repeat split; try assumption. left. split; reflexivity.
  - erewrite execute_sql_unbound; [|exact Hamb]. cbn [snd].
    repeat split; try assumption. left. split; reflexivity.
Qed.

End ToolFootprint.

(* ===================================================================== *)
(** ** Further properties: the standalone chat of [src/src/l2.py] *)
(* ===================================================================== *)

Section ChatPrompt.

Context {Storage : Type}.
Implicit Types (w : World Storage) (inst : SrcL2.Installation).
Implicit Types (prompt_type line : str).

Lemma default_for_trimmed prompt_type : trimmed (default_for prompt_type).
Proof.
  unfold default_for. destruct (SrcL2.str_eq prompt_type (py "system"));
    split; reflexivity.
Qed.

Lemma get_prompt_line inst prompt_type w line rest :
  stdin w = Line line :: rest ->
  SrcL2.get_prompt inst prompt_type w
  = (Return (or_ (strip line) (default_for prompt_type)),
     set_stdin rest (write_stdout (prompt_for inst prompt_type) w)).
Proof.
  intros Hin. unfold SrcL2.get_prompt, try_except, bind, input.
  cbn [stdin write_stdout]. rewrite Hin. reflexivity.
Qed.

Lemma get_prompt_no_line inst prompt_type w :
  (stdin w = [] \/ exists rest, stdin w = CtrlC :: rest) ->
  SrcL2.get_prompt inst prompt_type w
  = (Raise (plain (SystemExit 0) (py "0")),
     write_stdout (nl ++ nl ++ py "Exiting..." ++ nl)
       (set_stdin (tl (stdin w))
                  (write_stdout (prompt_for inst prompt_type) w))).
Proof.
  intros [Hin|[rest Hin]];
    unfold SrcL2.get_prompt, try_except, bind, input;
    cbn [stdin write_stdout]; rewrite Hin;
    cbn [dispatch is_KeyboardInterrupt_or_EOFError plain exc_cls tl];
    unfold print, exit, raise, write_stdout, set_stdin, prompt_for,
      default_for;
    cbn [ambient storage stdin stdout db_calls];
    repeat rewrite <- app_assoc; try rewrite Hin; reflexivity.
Qed.

(** X17: the fallback of [get_prompt] goes by the prompt type.  When the
    terminal delivers a line that is empty or all white space, the answer
    is the geography-assistant default only for the prompt type
    ['system'], spelled exactly so; every other prompt type gets the
    question about the capital of Laos.  Any other line is answered
    stripped.  In each case the answer is not empty and not padded, and
    exactly one line has been read. *)
Theorem get_prompt_falls_back_by_type inst prompt_type w line rest :
  stdin w = Line line :: rest ->
  (all_space line -> prompt_type = py "system" ->
   fst (SrcL2.get_prompt inst prompt_type w)
   = Return (py "You are a helpful geography assistant"))
  /\ (all_space line -> prompt_type <> py "system" ->
      fst (SrcL2.get_prompt inst prompt_type w)
      = Return (py "What is the capital of Laos?"))
  /\ (~ all_space line ->
      fst (SrcL2.get_prompt inst prompt_type w) = Return (strip line))
  /\ (exists answer,
         fst (SrcL2.get_prompt inst prompt_type w) = Return answer
         /\ trimmed answer)
  /\ stdin (snd (SrcL2.get_prompt inst prompt_type w)) = rest.
Proof.
  intros Hin. rewrite (get_prompt_line inst prompt_type _ Hin).
  cbn [fst snd set_stdin stdin]. rewrite or_strip.
  split; [|split; [|split; [|split]]].
  - intros Hsp ->. unfold all_space in Hsp. rewrite Hsp. reflexivity.
  - intros Hsp Hne. unfold all_space in Hsp. rewrite Hsp.
    unfold default_for, SrcL2.str_eq.
    rewrite bool_decide_eq_false_2 by exact Hne. reflexivity.
  - intros Hns. destruct (forallb isspace line) eqn:Hsp; [|reflexivity].
    exfalso. apply Hns. exact Hsp.
  - eexists. split; [reflexivity|].
    destruct (forallb isspace line) eqn:Hsp.
    + apply default_for_trimmed.
    + apply strip_trimmed. unfold all_space. congruence.
  - reflexivity.
Qed.

(** X18: the order of [create_agent].  The model is made before anything
    is asked: when [ChatCohere()] raises, [create_agent] raises the same
    exception with nothing written and nothing read.  With a model and two
    delivered lines, the first line answers the system prompt and the
    second the human prompt, and the model is invoked once, on the system
    message followed by the human message.  When the terminal ends after
    the first line, the program leaves with [SystemExit(0)] and the model
    is never invoked. *)
Theorem create_agent_asks_then_invokes inst w :
  (forall e, SrcL2.ChatCohere inst = Raise e ->
             SrcL2.create_agent inst w = (Raise e, w))
  /\ (forall model first second rest,
         SrcL2.ChatCohere inst = Return model ->
         stdin w = Line first :: Line second :: rest ->
         SrcL2.create_agent inst w
         = (SrcL2.invoke model
              [SrcL2.SystemMessage
                 (or_ (strip first) SrcL2.DEFAULT_SYSTEM_PROMPT);
               SrcL2.HumanMessage
                 (or_ (strip second) SrcL2.DEFAULT_HUMAN_PROMPT)],
            set_stdin rest
              (write_stdout (prompt_for inst (py "system")
                             ++ prompt_for inst (py "human")) w)))
  /\ (forall model first,
         SrcL2.ChatCohere inst = Return model ->
         stdin w = [Line first] ->
         fst (SrcL2.create_agent inst w)
         = Raise (plain (SystemExit 0) (py "0"))).
Proof.
  split; [|split].
  - intros e He. unfold SrcL2.create_agent, bind, lift. rewrite He.
    reflexivity.
  - intros model first second rest Hm Hin.
    unfold SrcL2.create_agent. unfold bind at 1. unfold lift at 1.
    rewrite Hm. unfold bind at 1.
    rewrite (get_prompt_line inst (py "system") _ Hin).
    unfold bind at 1.
    erewrite get_prompt_line; [|reflexivity].
    unfold lift. f_equal.
    unfold set_stdin, write_stdout.
    cbn [ambient storage stdin stdout db_calls].
    rewrite <- app_assoc. reflexivity.
  - intros model first Hm Hin.
    unfold SrcL2.create_agent. unfold bind at 1. unfold lift at 1.
    rewrite Hm. unfold bind at 1.
    rewrite (get_prompt_line inst (py "system") _ Hin).
    unfold bind at 1.
    rewrite get_prompt_no_line by (left; reflexivity).
    reflexivity.
Qed.

End ChatPrompt.

Section ChatViewer.

Context {Storage : Type}.
Implicit Types (w : World Storage) (inst : SrcL2.Installation).
Implicit Types (response : SrcL2.Response) (choice : str).

Lemma write_stdout_nil w : write_stdout [] w = w.
Proof. destruct w. unfold write_stdout. cbn. rewrite app_nil_r. reflexivity. Qed.

Lemma ret_prints {A} (a : A) : prints_and_returns (Storage:=Storage) (ret a) a.
Proof. intros w. exists []. rewrite write_stdout_nil. reflexivity. Qed.

Lemma print_prints (s : str) :
  prints_and_returns (Storage:=Storage) (print s) tt.
Proof. intros w. exists (s ++ nl). reflexivity. Qed.

Lemma pprint_prints (s : str) :
  prints_and_returns (Storage:=Storage) (SrcL2.pprint s) tt.
Proof. intros w. exists s. reflexivity. Qed.

Lemma bind_prints {A B} (m : M Storage A) (k : A -> M Storage B) a b :
  prints_and_returns m a ->
  prints_and_returns (k a) b ->
  prints_and_returns (bind m k) b.
Proof.
  intros Hm Hk w. destruct (Hm w) as [out1 H1].
  destruct (Hk (write_stdout out1 w)) as [out2 H2].
  exists (out1 ++ out2). unfold bind. rewrite H1, H2.
  rewrite write_stdout_twice. reflexivity.
Qed.

Lemma print_each (lines : list (nat * SrcL2.Msg)) w :
  for_list lines
    (fun numbered (_ : unit) =>
       print (SrcL2.message_line (fst numbered) (snd numbered))) tt w
  = (Return tt,
     write_stdout
       (printed (map (fun numbered =>
                        SrcL2.message_line (fst numbered) (snd numbered))
                     lines)) w).
Proof.
  revert w. induction lines as [|l ls IH]; intros w.
  - cbn. rewrite write_stdout_nil. reflexivity.
  - cbn [for_list]. unfold bind, print at 1. rewrite IH.
    rewrite write_stdout_twice. reflexivity.
Qed.

Lemma str_eq_true (a b : str) : SrcL2.str_eq a b = true <-> a = b.
Proof. unfold SrcL2.str_eq. apply bool_decide_eq_true. Qed.

Lemma act_zero response w :
  SrcL2.act response (py "0") w = (Return Break, w).
Proof. reflexivity. Qed.

(** Any choice but ['0'] goes on with the menu, having only printed,
    unless it is ['1'] on a response without [__dict__]. *)
Lemma act_goes_on response choice :
  SrcL2.response_metadata response <> None ->
  choice <> py "0" ->
  (SrcL2.vars_text response = None -> choice <> py "1") ->
  prints_and_returns (Storage:=Storage) (SrcL2.act response choice) Continue.
Proof.
  intros Hmeta Hne Hraw. unfold SrcL2.act.
  destruct (SrcL2.str_eq choice (py "0")) eqn:H0;
    [apply str_eq_true in H0; contradiction|].
  destruct (SrcL2.str_eq choice (py "1")) eqn:H1.
  { apply str_eq_true in H1.
    eapply bind_prints; [apply print_prints|].
    destruct (SrcL2.vars_text response) as [text|];
      [|exfalso; apply Hraw; [reflexivity|exact H1]].
    eapply bind_prints; [apply pprint_prints|apply ret_prints]. }
  destruct (SrcL2.str_eq choice (py "2")).
  { eapply bind_prints; [apply print_prints|].
    destruct (SrcL2.response_metadata response) as [text|];
      [|contradiction].
    eapply bind_prints; [apply pprint_prints|apply ret_prints]. }
  destruct (SrcL2.str_eq choice (py "3")).
  { eapply bind_prints; [apply print_prints|].
    eapply bind_prints; [|apply ret_prints].
    intros w. eexists. apply print_each. }
  eapply bind_prints; [apply print_prints|apply ret_prints].
Qed.

(** Choice ['1'] on a response without [__dict__]: the heading is
    written, then [vars] raises. *)
Lemma act_raw_fails response w :
  SrcL2.vars_text response = None ->
  SrcL2.act response (py "1") w
  = (Raise (plain TypeError
                  (py "vars() argument must have __dict__ attribute")),
     write_stdout (nl ++ py "Raw Response:" ++ nl) w).
Proof.
  intros Hvars. unfold SrcL2.act.
  change (SrcL2.str_eq (py "1") (py "0")) with false.
  change (SrcL2.str_eq (py "1") (py "1")) with true.
  cbv iota. unfold bind at 1, print at 1. rewrite Hvars.
  unfold bind, raise. repeat rewrite <- app_assoc. reflexivity.
Qed.

Lemma menu_loop_line response fuel w (line : str) rest :
  stdin w = Line line :: rest ->
  SrcL2.menu_loop response (S fuel) w
  = match SrcL2.act response (strip line)
            (set_stdin rest (write_stdout menu_prompt w)) with
    | (Return Break, w') => (Return (Some tt), w')
    | (Return Continue, w') => SrcL2.menu_loop response fuel w'
    | (Raise e, w') => (Raise e, w')
    end.
Proof.
  intros Hin. cbn [SrcL2.menu_loop]. unfold bind at 1, print at 1.
  unfold bind at 1, input at 1. cbn [stdin write_stdout]. rewrite Hin.
  unfold bind at 1.
  replace (set_stdin rest _)
    with (set_stdin rest (write_stdout menu_prompt w)).
  - destruct (SrcL2.act response (strip line)
                (set_stdin rest (write_stdout menu_prompt w)))
      as [[[]|e] w']; reflexivity.
  - unfold set_stdin, write_stdout, menu_prompt.
    cbn [ambient storage stdin stdout db_calls].
    repeat rewrite <- app_assoc. reflexivity.
Qed.

Lemma menu_loop_no_line response fuel w :
  stdin w = [] ->
  SrcL2.menu_loop response (S fuel) w
  = (Raise (plain EOFError (py "EOF when reading a line")),
     write_stdout menu_prompt w).
Proof.
  intros Hin. cbn [SrcL2.menu_loop]. unfold bind at 1, print at 1.
  unfold bind at 1, input at 1. cbn [stdin write_stdout]. rewrite Hin.
  f_equal. unfold write_stdout, menu_prompt.
  cbn [ambient storage stdin stdout db_calls].
  repeat rewrite <- app_assoc. reflexivity.
Qed.

Lemma menu_loop_interrupt response fuel w rest :
  stdin w = CtrlC :: rest ->
  fst (SrcL2.menu_loop response (S fuel) w)
  = Raise (plain KeyboardInterrupt []).
Proof.
  intros Hin. cbn [SrcL2.menu_loop]. unfold bind at 1, print at 1.
  unfold bind at 1, input at 1. cbn [stdin write_stdout]. rewrite Hin.
  reflexivity.
Qed.

(** With fuel for every line the terminal still holds, the menu ends. *)
Lemma menu_loop_ends response :
  SrcL2.response_metadata response <> None ->
  forall fuel w,
    (List.length (stdin w) < fuel)%nat ->
    fst (SrcL2.menu_loop response fuel w) = Return (Some tt)
    \/ (fst (SrcL2.menu_loop response fuel w)
        = Raise (plain EOFError (py "EOF when reading a line"))
        /\ stdin (snd (SrcL2.menu_loop response fuel w)) = [])
    \/ fst (SrcL2.menu_loop response fuel w)
       = Raise (plain KeyboardInterrupt [])
    \/ (fst (SrcL2.menu_loop response fuel w)
        = Raise (plain TypeError
                       (py "vars() argument must have __dict__ attribute"))
        /\ SrcL2.vars_text response = None).
Proof.
  intros Hmeta fuel. induction fuel as [|fuel IH]; intros w Hfuel; [lia|].
  destruct (stdin w) as [|[line|] rest] eqn:Hin.
  - right. left. rewrite (menu_loop_no_line _ _ _ Hin).
    split; [reflexivity|exact Hin].
  - rewrite (menu_loop_line _ _ _ Hin).
    destruct (decide (strip line = py "0")) as [Hz|Hnz].
    { rewrite Hz, act_zero. left. reflexivity. }
    destruct (SrcL2.vars_text response) as [text|] eqn:Hvars.
    + destruct (@act_goes_on response (strip line) Hmeta Hnz
                  ltac:(rewrite Hvars; discriminate)
                  (set_stdin rest (write_stdout menu_prompt w)))
        as [out ->].
      destruct (IH (write_stdout out
                      (set_stdin rest (write_stdout menu_prompt w))))
        as [H|[H|[H|[H Hnone]]]];
        [cbn [write_stdout set_stdin stdin]; cbn in Hfuel; lia| | | |].
      * left. exact H.
      * right. left. exact H.
      * right. right. left. exact H.
      * discriminate Hnone.
    + destruct (decide (strip line = py "1")) as [Hone|Hnone].
      * rewrite Hone, (act_raw_fails _ _ Hvars).
        right. right. right. split; reflexivity.
      * destruct (@act_goes_on response (strip line) Hmeta Hnz
                    (fun _ => Hnone)
                    (set_stdin rest (write_stdout menu_prompt w)))
          as [out ->].
        destruct (IH (write_stdout out
                        (set_stdin rest (write_stdout menu_prompt w))))
          as [H|[H|[H|[H _]]]];
          [cbn [write_stdout set_stdin stdin]; cbn in Hfuel; lia| | | |].
        -- left. exact H.
        -- right. left. exact H.
        -- right. right. left. exact H.
        -- right. right. right. split; [exact H|reflexivity].
  - right. right. left. apply (menu_loop_interrupt _ _ _ Hin).
Qed.

(** Choices that go on are worked off one by one. *)
Lemma menu_loop_skips response (choices : list str) :
  SrcL2.response_metadata response <> None ->
  Forall (fun choice => strip choice <> py "0") choices ->
  (SrcL2.vars_text response = None ->
   Forall (fun choice => strip choice <> py "1") choices) ->
  forall w (later : list StdinEvent),
    stdin w = map Line choices ++ later ->
    exists out,
      forall fuel,
        SrcL2.menu_loop response (List.length choices + fuel) w
        = SrcL2.menu_loop response fuel
            (set_stdin later (write_stdout out w)).
Proof.
  intros Hmeta Hzero Hone.
  induction choices as [|choice choices IH]; intros w later Hin.
  - exists []. intros fuel. cbn [List.length Nat.add].
    rewrite write_stdout_nil. cbn [map app] in Hin.
    destruct w. cbn in Hin. subst. reflexivity.
  - cbn [map app] in Hin.
    assert (Hz : strip choice <> py "0") by (inversion Hzero; assumption).
    assert (Hzs : Forall (fun c => strip c <> py "0") choices)
      by (inversion Hzero; assumption).
    assert (H1 : SrcL2.vars_text response = None -> strip choice <> py "1").
    { intros Hv. specialize (Hone Hv). inversion Hone. assumption. }
    assert (H1s : SrcL2.vars_text response = None ->
                  Forall (fun c => strip c <> py "1") choices).
    { intros Hv. specialize (Hone Hv). inversion Hone. assumption. }
    destruct (@act_goes_on response (strip choice) Hmeta Hz H1
                (set_stdin (map Line choices ++ later)
                           (write_stdout menu_prompt w)))
      as [out1 Hact].
    destruct (IH Hzs H1s
                (write_stdout out1
                   (set_stdin (map Line choices ++ later)
                              (write_stdout menu_prompt w)))
                later eq_refl)
      as [out2 Hrest].
    exists (menu_prompt ++ out1 ++ out2). intros fuel.
    cbn [List.length Nat.add].
    rewrite (menu_loop_line _ _ _ Hin), Hact, Hrest. f_equal.
    unfold set_stdin, write_stdout.
    cbn [ambient storage stdin stdout db_calls].
    repeat rewrite <- app_assoc. reflexivity.
Qed.

(** X19: the viewer always ends.  Given fuel for every line the terminal
    still holds, [interactive_response_viewer] never runs on.  It returns
    (at once, without reading, for a response without
    [response_metadata]; otherwise when a choice strips to ['0']), or the
    terminal reaches end of file with every line consumed and [input]
    raises [EOFError], or the user interrupts, or choice ['1'] meets a
    response without [__dict__] and [vars] raises [TypeError].  Nothing
    else leaves the viewer. *)
Theorem viewer_always_ends response fuel w :
  (List.length (stdin w) < fuel)%nat ->
  let run := SrcL2.interactive_response_viewer response fuel w in
  (SrcL2.response_metadata response = None ->
   run = (Return (Some tt),
          write_stdout
            (py "No detailed metadata available for this response." ++ nl)
            w))
  /\ (fst run = Return (Some tt)
      \/ (fst run = Raise (plain EOFError (py "EOF when reading a line"))
          /\ stdin (snd run) = [])
      \/ fst run = Raise (plain KeyboardInterrupt [])
      \/ (fst run
          = Raise (plain TypeError
                         (py "vars() argument must have __dict__ attribute"))
          /\ SrcL2.vars_text response = None)).
Proof.
  intros Hfuel run. subst run. unfold SrcL2.interactive_response_viewer.
  destruct (SrcL2.response_metadata response) as [text|] eqn:Hmeta.
  - split; [discriminate|].
    apply menu_loop_ends; [|exact Hfuel]. rewrite Hmeta. discriminate.
  - split; [reflexivity|]. left. reflexivity.
Qed.

(** X20: where the viewer leaves.  Let the terminal deliver lines none of
    which strips to ['0'] and, for a response without [__dict__], none of
    which strips to ['1'], followed by one more line.  If that line
    strips to ['0'] (so [' 0 '] counts), the viewer of a response with
    metadata returns there.  If it strips to ['1'] and the response has no
    [__dict__], the viewer raises the [TypeError] of [vars] there.  Either
    way the lines after it are left unread and the world is otherwise
    changed only by output. *)
Theorem viewer_leaves_at_first_zero
        response fuel w (choices : list str) (last_line : str) rest :
  SrcL2.response_metadata response <> None ->
  stdin w = map Line choices ++ Line last_line :: rest ->
  Forall (fun choice => strip choice <> py "0") choices ->
  (SrcL2.vars_text response = None ->
   Forall (fun choice => strip choice <> py "1") choices) ->
  (List.length choices < fuel)%nat ->
  (strip last_line = py "0" ->
   exists out,
     SrcL2.interactive_response_viewer response fuel w
     = (Return (Some tt), set_stdin rest (write_stdout out w)))
  /\ (strip last_line = py "1" ->
      SrcL2.vars_text response = None ->
      exists out,
        SrcL2.interactive_response_viewer response fuel w
        = (Raise (plain TypeError
                        (py "vars() argument must have __dict__ attribute")),
           set_stdin rest (write_stdout out w))).
Proof.
  intros Hmeta Hin Hzero Hone Hfuel.
  unfold SrcL2.interactive_response_viewer.
  destruct (SrcL2.response_metadata response) as [text|] eqn:Hm;
    [|contradiction].
  assert (Hmeta' : SrcL2.response_metadata response <> None)
    by (rewrite Hm; discriminate).
  destruct (@menu_loop_skips response choices Hmeta' Hzero Hone w
              (Line last_line :: rest) Hin) as [out Hskip].
  replace fuel
    with (List.length choices + S (fuel - S (List.length choices)))%nat
    by lia.
  rewrite Hskip.
  erewrite menu_loop_line; [|reflexivity].
  split.
  - intros Hlast. rewrite Hlast, act_zero.
    exists (out ++ menu_prompt). f_equal.
    unfold set_stdin, write_stdout.
    cbn [ambient storage stdin stdout db_calls].
    repeat rewrite <- app_assoc. reflexivity.
  - intros Hlast Hvars. rewrite Hlast, (act_raw_fails _ _ Hvars).
    exists (out ++ menu_prompt ++ nl ++ py "Raw Response:" ++ nl). f_equal.
    unfold set_stdin, write_stdout.
    cbn [ambient storage stdin stdout db_calls].
    repeat rewrite <- app_assoc. reflexivity.
Qed.

(** X21: what the choices write.  Of a response with metadata, choice
    ['3'] lists the messages numbered from 1, each as
    ['<i>. <type name>: <content>'] with ['[No content]'] for a missing or
    falsy content, and a response without a [messages] attribute is listed
    as the one message it is; every choice other than ['0'], ['1'], ['2']
    and ['3'] writes ['Invalid choice. Please try again.'] and nothing
    else.  Both go on with the menu. *)
Theorem viewer_choices response w :
  SrcL2.act response (py "3") w
  = (Return Continue,
     write_stdout
       (nl ++ py "Available Message Types:" ++ nl ++ SrcL2.rule ++ nl
           ++ printed
                (message_lines
                   match SrcL2.messages response with
                   | Some msgs => msgs
                   | None => [SrcL2.as_message response]
                   end)) w)
  /\ (forall choice,
         choice <> py "0" -> choice <> py "1" ->
         choice <> py "2" -> choice <> py "3" ->
         SrcL2.act response choice w
         = (Return Continue,
            write_stdout (nl ++ py "Invalid choice. Please try again." ++ nl)
                         w))
  /\ (forall i msg,
         SrcL2.message_line i msg
         = SrcL2.decimal i ++ py ". " ++ SrcL2.type_name msg ++ py ": "
             ++ match SrcL2.content msg with
                | Some value =>
                    if SrcL2.truthy value then SrcL2.to_str value
                    else py "[No content]"
                | None => py "[No content]"
                end).
Proof.
  split; [|split].
  - unfold SrcL2.act.
    change (SrcL2.str_eq (py "3") (py "0")) with false.
    change (SrcL2.str_eq (py "3") (py "1")) with false.
    change (SrcL2.str_eq (py "3") (py "2")) with false.
    change (SrcL2.str_eq (py "3") (py "3")) with true.
    cbv iota. unfold bind at 1, print at 1. unfold bind at 1.
    rewrite print_each. unfold ret. rewrite write_stdout_twice.
    unfold message_lines.
    repeat rewrite <- app_assoc. reflexivity.
  - intros choice H0 H1 H2 H3. unfold SrcL2.act, SrcL2.str_eq.
    rewrite !bool_decide_eq_false_2 by assumption.
    unfold bind, print, ret.
    repeat rewrite <- app_assoc. reflexivity.
  - reflexivity.
Qed.

End ChatViewer.

Section ChatProgram.

Context {Storage : Type}.
Implicit Types (w : World Storage) (inst : SrcL2.Installation).
Implicit Types (response : SrcL2.Response).

Lemma handle_error_l2_returns (e : exc) (context : str) :
  prints_and_returns (Storage:=Storage) (SrcL2.handle_error e context) tt.
Proof.
  unfold SrcL2.handle_error.
  eapply bind_prints; [apply print_prints|].
  destruct (exc_response_text e); [apply print_prints|apply ret_prints].
Qed.

Lemma get_prompt_outcome inst (prompt_type : str) w o w' :
  SrcL2.get_prompt inst prompt_type w = (o, w') ->
  (exists answer,
      o = Return answer
      /\ (List.length (stdin w') <= List.length (stdin w))%nat)
  \/ o = Raise (plain (SystemExit 0) (py "0")).
Proof.
  destruct (stdin w) as [|[line|] rest] eqn:Hin.
  - rewrite get_prompt_no_line by (left; exact Hin).
    intros [= <- <-]. right. reflexivity.
  - rewrite (get_prompt_line inst prompt_type _ Hin).
    intros [= <- <-]. left. eexists. split; [reflexivity|].
    cbn [set_stdin stdin]. cbn. lia.
  - rewrite get_prompt_no_line by (right; eexists; exact Hin).
    intros [= <- <-]. right. reflexivity.
Qed.

Lemma create_agent_unfold inst w :
  SrcL2.create_agent inst w
  = match SrcL2.ChatCohere inst with
    | Raise e => (Raise e, w)
    | Return model =>
        match SrcL2.get_prompt inst (py "system") w with
        | (Raise e, w1) => (Raise e, w1)
        | (Return system_prompt, w1) =>
            match SrcL2.get_prompt inst (py "human") w1 with
            | (Raise e, w2) => (Raise e, w2)
            | (Return human_prompt, w2) =>
                (SrcL2.invoke model
                   [SrcL2.SystemMessage system_prompt;
                    SrcL2.HumanMessage human_prompt], w2)
            end
        end
    end.
Proof.
  unfold SrcL2.create_agent, bind, lift.
  destruct (SrcL2.ChatCohere inst) as [model|e]; [|reflexivity].
  destruct (SrcL2.get_prompt inst (py "system") w) as [[s|e] w1];
    [|reflexivity].
  destruct (SrcL2.get_prompt inst (py "human") w1) as [[h|e] w2];
    reflexivity.
Qed.

Lemma create_agent_outcome inst w :
  well_behaved inst ->
  (exists response w',
      SrcL2.create_agent inst w = (Return response, w')
      /\ (List.length (stdin w') <= List.length (stdin w))%nat)
  \/ (exists e,
         fst (SrcL2.create_agent inst w) = Raise e
         /\ (is_Exception e || is_KeyboardInterrupt e = true
             \/ e = plain (SystemExit 0) (py "0"))).
Proof.
  intros [Hmake Hinvoke]. rewrite create_agent_unfold.
  destruct (SrcL2.ChatCohere inst) as [model|e] eqn:Hm.
  2:{ right. exists e. split; [reflexivity|]. left. apply Hmake. reflexivity. }
  destruct (SrcL2.get_prompt inst (py "system") w) as [o1 w1] eqn:H1.
  destruct (get_prompt_outcome _ _ _ H1) as [(first & -> & Hlen1)| ->].
  2:{ right. eexists. split; [reflexivity|]. right. reflexivity. }
  destruct (SrcL2.get_prompt inst (py "human") w1) as [o2 w2] eqn:H2.
  destruct (get_prompt_outcome _ _ _ H2) as [(second & -> & Hlen2)| ->].
  2:{ right. eexists. split; [reflexivity|]. right. reflexivity. }
  destruct (SrcL2.invoke model _) as [response|e] eqn:Hi.
  - left. eexists _, _. split; [reflexivity|]. lia.
  - right. exists e. split; [reflexivity|]. left.
    eapply Hinvoke; [reflexivity|exact Hi].
Qed.

Lemma viewer_outcome response fuel w :
  (List.length (stdin w) < fuel)%nat ->
  graceful (fst (SrcL2.interactive_response_viewer response fuel w)).
Proof.
  intros Hfuel. unfold SrcL2.interactive_response_viewer.
  destruct (SrcL2.response_metadata response) as [text|] eqn:Hmeta.
  - assert (Hm : SrcL2.response_metadata response <> None)
      by (rewrite Hmeta; discriminate).
    destruct (@menu_loop_ends Storage response Hm fuel w Hfuel)
      as [-> | [[-> _] | [-> | [-> _]]]].
    + left. reflexivity.
    + right. left. eexists. split; reflexivity.
    + right. left. eexists. split; reflexivity.
    + right. left. eexists. split; reflexivity.
  - left. reflexivity.
Qed.

(** The body of the [try] in [main]. *)
Lemma chat_body_graceful inst fuel w :
  well_behaved inst ->
  (List.length (stdin w) < fuel)%nat ->
  graceful
    (fst ((response <- SrcL2.create_agent inst ;;
           text <- SrcL2.content_text response ;;
           print (nl ++ py "Agent response:" ++ nl ++ SrcL2.rule ++ nl
                     ++ text ++ nl ++ SrcL2.rule) ;;;
           SrcL2.interactive_response_viewer response fuel) w)).
Proof.
  intros Hinst Hfuel. unfold bind at 1.
  destruct (@create_agent_outcome inst w Hinst)
    as [(response & w1 & -> & Hlen)|(e & He & Hkind)].
  - unfold bind at 1, SrcL2.content_text.
    destruct (SrcL2.content (SrcL2.as_message response)) as [value|].
    + unfold ret at 1. unfold bind, print.
      apply viewer_outcome. cbn [write_stdout stdin]. lia.
    + right. left. eexists. split; reflexivity.
  - destruct (SrcL2.create_agent inst w) as [[r|e'] w1]; cbn [fst] in *;
      [discriminate|]. injection He as ->.
    destruct Hkind as [Hh| ->].
    + right. left. exists e. split; [reflexivity|exact Hh].
    + right. right. reflexivity.
Qed.

Lemma chat_main_outcome inst fuel w :
  well_behaved inst ->
  (List.length (stdin w) < fuel)%nat ->
  fst (SrcL2.main inst fuel w) = Return (Some tt)
  \/ fst (SrcL2.main inst fuel w) = Raise (plain (SystemExit 0) (py "0")).
Proof.
  intros Hinst Hfuel.
  assert (Hstart : SrcL2.main inst fuel w
            = try_except
                (response <- SrcL2.create_agent inst ;;
                 text <- SrcL2.content_text response ;;
                 print (nl ++ py "Agent response:" ++ nl ++ SrcL2.rule ++ nl
                           ++ text ++ nl ++ SrcL2.rule) ;;;
                 SrcL2.interactive_response_viewer response fuel)
                [(is_KeyboardInterrupt,
                  fun _ => print (nl ++ py "Operation cancelled by user.") ;;;
                           ret (Some tt));
                 (is_Exception,
                  fun e => SrcL2.handle_error e (py "during agent invocation")
                           ;;; ret (Some tt))]
                (write_stdout
                   ((nl ++ py "Starting chat with agent..." ++ nl) ++ nl) w))
    by reflexivity.
  rewrite Hstart. clear Hstart. unfold try_except.
  set (w1 := write_stdout _ w).
  pose proof (@chat_body_graceful inst fuel w1 Hinst Hfuel) as Hbody.
  destruct ((response <- SrcL2.create_agent inst ;;
             text <- SrcL2.content_text response ;;
             print (nl ++ py "Agent response:" ++ nl ++ SrcL2.rule ++ nl
                       ++ text ++ nl ++ SrcL2.rule) ;;;
             SrcL2.interactive_response_viewer response fuel) w1)
    as [[r|e] w2]; cbn [fst] in Hbody.
  - destruct Hbody as [-> | [(e & [=] & _) | [=]]]. left. reflexivity.
  - destruct Hbody as [[=] | [(e' & [= <-] & Hh) | [= ->]]].
    + cbn [dispatch]. destruct (is_KeyboardInterrupt e) eqn:Hki.
      * left. reflexivity.
      * rewrite orb_false_r in Hh. rewrite Hh. left.
        unfold bind.
        destruct (@handle_error_l2_returns
                    e (py "during agent invocation") w2) as [out ->].
        reflexivity.
    + right. reflexivity.
Qed.

(** X22: the standalone chat always ends with status 0.  If everything
    the installation can raise is an ordinary exception or an interrupt,
    then for every terminal input, given fuel for every line it holds, the
    program of [src/src/l2.py] ends and its exit status is 0: a failed
    model is reported, an interrupt is acknowledged, the end of the input
    is either a graceful exit at a prompt or a reported error in the
    viewer, and none of them changes the status. *)
Theorem chat_exit_status_zero inst fuel w :
  well_behaved inst ->
  (List.length (stdin w) < fuel)%nat ->
  exit_status (fst (SrcL2.dunder_main inst fuel w)) = Some 0%Z.
Proof.
  intros Hinst Hfuel. unfold SrcL2.dunder_main, try_except.
  destruct (@chat_main_outcome inst fuel w Hinst Hfuel) as [Hm|Hm];
    destruct (SrcL2.main inst fuel w) as [[r|e] w'];
    cbn [fst] in Hm; try discriminate.
  - injection Hm as ->. reflexivity.
  - injection Hm as ->. reflexivity.
Qed.

End ChatProgram.

(* ===================================================================== *)
(** ** Runs for the further properties *)
(* ===================================================================== *)

Section MoreRuns.

Import Demo Cases.

Lemma get_user_question_reads_one_line_witness :
  exists question,
    fst (SrcL1.get_user_question
           (world None [Line (py " top 3 "); Line (py "next")]))
    = Return question
    /\ stdin (snd (SrcL1.get_user_question
                     (world None [Line (py " top 3 "); Line (py "next")])))
       = [Line (py "next")]
    /\ trimmed question.
Proof.
  destruct (@get_user_question_reads_one_line
              Storage (world None [Line (py " top 3 "); Line (py "next")])
              (py " top 3 ") [Line (py "next")] eq_refl)
    as (question & Hsrc & _ & Htrim).
  exists question. rewrite Hsrc. repeat split. exact Htrim.
Defined.

Lemma get_user_question_exits_without_input_witness :
  fst (SrcL1.get_user_question (world None []))
  = Raise (plain (SystemExit 0) (py "0"))
  /\ exit_status (fst (SrcL1.dunder_main installed 1 (world None [])))
     = Some 0%Z.
Proof.
  pose proof (@get_user_question_exits_without_input
                Storage G
                (snd (SrcL1.construct installed (world None [])))
                (or_introl eq_refl))
    as (Hexit & _ & _ & _ & Hrun).
  split.
  - vm_compute. reflexivity.
  - apply (Hrun installed 1%nat (world None []) chinook agent). reflexivity.
Defined.

Lemma script_prompt_without_input_witness :
  exit_status (fst (L1.dunder_main globals 1 (world None []))) = Some 0%Z
  /\ exit_status (fst (L1.dunder_main globals 1 (world None [CtrlC])))
     = Some 130%Z.
Proof.
  split.
  - apply (proj1 (@script_prompt_without_input
                    Storage G globals 1 (world None [])) eq_refl).
  - apply (proj2 (@script_prompt_without_input
                    Storage G globals 1 (world None [CtrlC])) [] eq_refl).
Defined.

Lemma stream_body_by_shape_witness :
  SrcL1.stream_body shapeless (world None [])
  = (Return Break,
     write_stdout (nl ++ py "Error processing stream: 'messages'" ++ nl)
                  (world None [])).
Proof.
  apply (proj1 (proj2 (@stream_body_by_shape
                         Storage shapeless (world None [])))).
  vm_compute. reflexivity.
Defined.

Lemma answering_yields :
  stream_yields answering [py "question"; py "answer"] two_snapshots
    (world None []) []
    (write_stdout (py "answer" ++ nl)
       (write_stdout (py "question" ++ nl) (world None []))).
Proof.
  eapply yields_more with (older := []); [reflexivity..|].
  eapply yields_more with (older := [ai_message "question"]);
    [reflexivity..|].
  apply yields_end. reflexivity.
Qed.

Lemma answering_quiet : quiet answering.
Proof. intros [|step rest] w; reflexivity. Qed.

Lemma stream_loop_prints_newest_messages_witness :
  for_in (gen_next answering) SrcL1.stream_body 3 two_snapshots
         (world None [])
  = (Return (Some []),
     write_stdout (py "answer" ++ nl)
       (write_stdout (py "question" ++ nl) (world None [])))
  /\ stdout (write_stdout (py "answer" ++ nl)
               (write_stdout (py "question" ++ nl) (world None [])))
     = py "question" ++ nl ++ py "answer" ++ nl.
Proof.
  destruct (@stream_loop_prints_newest_messages
              Storage G answering _ _ _ _ _ 3 answering_yields
              ltac:(cbn; lia))
    as (Hloop & _ & Hout).
  split; [exact Hloop|]. rewrite (Hout answering_quiet). reflexivity.
Defined.

End MoreRuns.

Section MoreRunsOfPrograms.

Import Demo Cases.

Lemma answering_run_yields :
  stream_yields answering [py "question"; py "answer"]
    (stream answering (py "hi") {[ "db" := chinook ]})
    (announced (py "hi")
       (snd (SrcL1.get_user_question
               (snd (SrcL1.construct (installation answering)
                                     (world None [Line (py "hi")]))))))
    []
    (snd (SrcL1.dunder_main (installation answering) 3
                            (world None [Line (py "hi")]))).
Proof.
  eapply yields_more with (older := []); [reflexivity..|].
  eapply yields_more with (older := [ai_message "question"]);
    [reflexivity..|].
  apply yields_end. reflexivity.
Qed.

Lemma complete_run_prints_and_exits_zero_witness :
  exit_status (fst (SrcL1.dunder_main (installation answering) 3
                      (world None [Line (py "hi")])))
  = Some 0%Z.
Proof.
  refine (proj1 (proj2
            (proj1 (@complete_run_prints_and_exits_zero
                      Storage G answering [py "question"; py "answer"]
                      [] _ 3 _)
                   (installation answering) (world None [Line (py "hi")])
                   chinook _ (py "hi") _ _ _ answering_run_yields))).
  - cbn. lia.
  - reflexivity.
  - reflexivity.
Defined.

Lemma refused_raises :
  stream_raises refused 1
    (stream refused (py "hi") {[ "db" := chinook ]})
    (announced (py "hi")
       (snd (SrcL1.get_user_question
               (snd (SrcL1.construct (installation refused)
                                     (world None [Line (py "hi")]))))))
    unauthorized
    (write_stdout (py "question" ++ nl)
       (announced (py "hi")
          (snd (SrcL1.get_user_question
                  (snd (SrcL1.construct (installation refused)
                                        (world None [Line (py "hi")]))))))).
Proof.
  eapply raises_later; [reflexivity|reflexivity|].
  apply raises_here. reflexivity.
Qed.

Lemma agent_failure_reaches_top_level_witness :
  fst (SrcL1.dunder_main (installation refused) 2
                         (world None [Line (py "hi")]))
  = Return (Some tt)
  /\ exit_status (fst (SrcL1.dunder_main (installation refused) 2
                         (world None [Line (py "hi")])))
     = Some 0%Z.
Proof.
  pose proof (proj1 (proj2 (@agent_failure_reaches_top_level
                      Storage G refused 1 unauthorized _ 2 ltac:(lia))
                      (installation refused) (world None [Line (py "hi")])
                      chinook _ (py "hi") _ eq_refl eq_refl refused_raises)
                    eq_refl) as [Hrun Hstatus].
  split; [|exact Hstatus]. rewrite Hrun. reflexivity.
Defined.

Lemma interrupted_raises :
  stream_raises (L1.global_agent (script_globals interrupted)) 1
    (stream (L1.global_agent (script_globals interrupted)) (py "hi")
            {[ "db" := L1.global_db (script_globals interrupted) ]})
    (announced (py "hi")
       (snd (L1.get_user_question (world None [Line (py "hi")]))))
    (plain KeyboardInterrupt [])
    (write_stdout (py "question" ++ nl)
       (announced (py "hi")
          (snd (L1.get_user_question (world None [Line (py "hi")]))))).
Proof.
  eapply raises_later; [reflexivity|reflexivity|].
  apply raises_here. reflexivity.
Qed.

Lemma script_agent_failure_witness :
  exit_status (fst (L1.dunder_main (script_globals interrupted) 2
                                   (world None [Line (py "hi")])))
  = Some 130%Z.
Proof.
  refine (proj2 (proj2 (@script_agent_failure
                          Storage G (script_globals interrupted) 1
                          (plain KeyboardInterrupt []) _ 2
                          (world None [Line (py "hi")]) (py "hi") _
                          _ eq_refl interrupted_raises)
                       eq_refl)).
  lia.
Defined.

Lemma dunder_main_exit_status_witness :
  fst (SrcL1.dunder_main (installation quitting) 2
                         (world None [Line (py "hi")]))
  = Raise (plain (SystemExit 3) (py "3")).
Proof.
  refine (f_equal fst
            (proj2 (proj2 (proj2
               (@dunder_main_exit_status
                  Storage G (installation quitting) 2
                  (world None [Line (py "hi")])
                  (Raise (plain (SystemExit 3) (py "3")))
                  (snd (SrcL1.main (installation quitting) 2
                                   (world None [Line (py "hi")])))
                  eq_refl)))
               (plain (SystemExit 3) (py "3")) eq_refl eq_refl eq_refl)).
Defined.

Lemma construct_builds_agent_from_schema_witness :
  fst (SrcL1.construct installed (world None []))
  = Return (chinook, agent).
Proof.
  refine (f_equal fst
            (@construct_builds_agent_from_schema
               Storage G installed (world None []) chinook
               chinook_columns_of agent eq_refl eq_refl _ eq_refl)).
  intros table [<-|[<-|[]]]; vm_compute; reflexivity.
Defined.

Lemma script_construction_ignores_db_path_witness :
  L1.module_body installed (world None [])
  = L1.module_body missing_file (world None []).
Proof.
  exact (proj1 (@script_construction_ignores_db_path
                  Storage G installed missing_file (world None [])
                  eq_refl eq_refl)).
Defined.

End MoreRunsOfPrograms.

Section ChatRuns.

Import Chat.

Lemma get_prompt_falls_back_by_type_witness :
  fst (SrcL2.get_prompt installed (py "human")
                        (terminal [Line (py "   ")]))
  = Return (py "What is the capital of Laos?").
Proof.
  refine (proj1 (proj2 (@get_prompt_falls_back_by_type
                          Storage installed (py "human")
                          (terminal [Line (py "   ")]) (py "   ") []
                          eq_refl)) _ _).
  - vm_compute. reflexivity.
  - vm_compute. discriminate.
Defined.

Lemma create_agent_asks_then_invokes_witness :
  fst (SrcL2.create_agent installed
         (terminal [Line (py ""); Line (py " Capital of Peru? ")]))
  = Return vientiane
  /\ returned (fst (SrcL2.create_agent no_credentials
                      (terminal [Line (py "never read")])))
     = false.
Proof.
  pose proof (@create_agent_asks_then_invokes
                Storage installed
                (terminal [Line (py ""); Line (py " Capital of Peru? ")]))
    as (_ & Htwo & _).
  pose proof (@create_agent_asks_then_invokes
                Storage no_credentials (terminal [Line (py "never read")]))
    as (Hnone & _).
  split.
  - rewrite (Htwo cohere _ _ [] eq_refl eq_refl). reflexivity.
  - rewrite (Hnone _ eq_refl). reflexivity.
Defined.

Lemma viewer_always_ends_witness :
  fst (SrcL2.interactive_response_viewer vientiane 3
         (terminal [Line (py "2"); Line (py "9")]))
  = Raise (plain EOFError (py "EOF when reading a line"))
  /\ fst (SrcL2.interactive_response_viewer slotted 3
            (terminal [Line (py "1"); Line (py "0")]))
     = Raise (plain TypeError
                    (py "vars() argument must have __dict__ attribute")).
Proof.
  split.
  - destruct (proj2 (@viewer_always_ends
                       Storage vientiane 3
                       (terminal [Line (py "2"); Line (py "9")])
                       ltac:(cbn; lia)))
      as [Hret|[[Heof _]|[Hint|[_ Hvars]]]].
    + vm_compute in Hret. discriminate.
    + exact Heof.
    + vm_compute in Hint. discriminate.
    + discriminate Hvars.
  - destruct (proj2 (@viewer_always_ends
                       Storage slotted 3
                       (terminal [Line (py "1"); Line (py "0")])
                       ltac:(cbn; lia)))
      as [Hret|[[Heof _]|[Hint|[Hraw _]]]].
    + vm_compute in Hret. discriminate.
    + vm_compute in Heof. discriminate.
    + vm_compute in Hint. discriminate.
    + exact Hraw.
Defined.

Lemma viewer_leaves_at_first_zero_witness :
  (exists out,
      SrcL2.interactive_response_viewer vientiane 2
        (terminal [Line (py "7"); Line (py " 0 "); Line (py "1")])
      = (Return (Some tt),
         set_stdin [Line (py "1")]
           (write_stdout out
              (terminal [Line (py "7"); Line (py " 0 "); Line (py "1")]))))
  /\ (exists out,
         SrcL2.interactive_response_viewer slotted 2
           (terminal [Line (py "7"); Line (py "1"); Line (py "0")])
         = (Raise (plain TypeError
                         (py "vars() argument must have __dict__ attribute")),
            set_stdin [Line (py "0")]
              (write_stdout out
                 (terminal [Line (py "7"); Line (py "1"); Line (py "0")])))).
Proof.
  split.
  - refine (proj1 (@viewer_leaves_at_first_zero
                     Storage vientiane 2
                     (terminal [Line (py "7"); Line (py " 0 "); Line (py "1")])
                     [py "7"] (py " 0 ") [Line (py "1")] _ eq_refl _ _ _) _).
    + discriminate.
    + constructor; [|constructor]. vm_compute. discriminate.
    + discriminate.
    + cbn. lia.
    + vm_compute. reflexivity.
  - refine (proj2 (@viewer_leaves_at_first_zero
                     Storage slotted 2
                     (terminal [Line (py "7"); Line (py "1"); Line (py "0")])
                     [py "7"] (py "1") [Line (py "0")] _ eq_refl _ _ _)
                  _ eq_refl).
    + discriminate.
    + constructor; [|constructor]. vm_compute. discriminate.
    + intros _. constructor; [|constructor]. vm_compute. discriminate.
    + cbn. lia.
    + vm_compute. reflexivity.
Defined.

Lemma viewer_choices_witness :
  SrcL2.act vientiane (py "9") (terminal [])
  = (Return Continue,
     write_stdout (nl ++ py "Invalid choice. Please try again." ++ nl)
                  (terminal [])).
Proof.
  apply (proj1 (proj2 (@viewer_choices Storage vientiane (terminal []))));
    vm_compute; discriminate.
Defined.

Lemma installed_well_behaved : well_behaved installed.
Proof.
  split.
  - intros e [=].
  - intros model conversation e [= <-] [=].
Qed.

Lemma chat_exit_status_zero_witness :
  exit_status
    (fst (SrcL2.dunder_main installed 4
            (terminal [Line (py ""); Line (py ""); Line (py "3")])))
  = Some 0%Z.
Proof.
  apply (@chat_exit_status_zero
           Storage installed 4
           (terminal [Line (py ""); Line (py ""); Line (py "3")])
           installed_well_behaved).
  cbn. lia.
Defined.

End ChatRuns.
